(** * Terminal hand-off ([exec.go]): stream proxies, the OS-process command
      and the hand-off controller.

    The Go code is embedded shallowly.  Every call the code makes through a
    function value or an interface (a stream's [Read]/[Write], a proxy's
    [Handler], the command's methods, the program's terminal operations, the
    completion callback) is an opaque transformer of an abstract [World];
    the embedding runs it and appends one event, carrying the arguments and
    the outcome, to the trace of the execution.  A call through a nil
    function value or nil interface panics, as it does in Go. *)

From Stdlib Require Import List ZArith String.
From Stdlib.Strings Require Import Byte.
Import ListNotations.

Set Implicit Arguments.

(** ** Values *)

(** A Go [error] that is not nil. *)
Inductive error_value : Type :=
| errors_New (msg : string).

(** The Go type [error]: [None] is nil. *)
Definition error : Type := option error_value.

(** The contents of a [[]byte] slice. *)
Definition bytes : Type := list byte.

(** How a call ends: it returns a value or it panics. *)
Inductive outcome (A : Type) : Type :=
| Ret (a : A)
| Panic (msg : string).
Arguments Panic {A} msg.

Definition returned {A : Type} (o : outcome A) : bool :=
  match o with Ret _ => true | Panic _ => false end.

Definition outcome_map {A B : Type} (f : A -> B) (o : outcome A) : outcome B :=
  match o with Ret a => Ret (f a) | Panic msg => Panic msg end.

(** The runtime error of a call through nil. *)
Definition nil_dereference : string :=
  "invalid memory address or nil pointer dereference"%string.

Section Tea.

(** Everything outside this file: the terminal, the operating system, the
    host program's own state. *)
Context {World : Type}.
(** [Msg] is the host's opaque message type. *)
Context {Msg : Type}.

(** The behaviour of a call into code outside this file. *)
Definition ext (A : Type) : Type := World -> outcome A * World.

(** [func(b []byte, n int, err error)].  The slice aliases the caller's
    buffer, so the function yields the buffer's contents after the call. *)
Definition HandlerFunc : Type := bytes -> Z -> error -> ext bytes.

(** ** Streams and proxies *)

(** [io.Reader] values: a [ReaderProxy], or any other implementation, whose
    [Read] is opaque and yields the buffer's new contents with [(n, err)]. *)
Inductive io_Reader : Type :=
| OpaqueReader (name : string) (read : bytes -> ext (bytes * Z * error))
| ProxyReader (s : ReaderProxy)
with ReaderProxy : Type :=
| Build_ReaderProxy (Reader : option io_Reader) (From : option io_Reader)
                    (Handler : option HandlerFunc).

(** [io.Writer] values, likewise. *)
Inductive io_Writer : Type :=
| OpaqueWriter (name : string) (write : bytes -> ext (bytes * Z * error))
| ProxyWriter (s : WriterProxy)
with WriterProxy : Type :=
| Build_WriterProxy (Writer : option io_Writer) (From : option io_Writer)
                    (Handler : option HandlerFunc).

(** [stdinProxy.From = r] on a local copy of the struct. *)
Definition ReaderProxy_set_From (s : ReaderProxy) (r : option io_Reader) : ReaderProxy :=
  match s with Build_ReaderProxy emb _ h => Build_ReaderProxy emb r h end.
Definition WriterProxy_set_From (s : WriterProxy) (w : option io_Writer) : WriterProxy :=
  match s with Build_WriterProxy emb _ h => Build_WriterProxy emb w h end.

(** ** Events, state and the monad *)

(** A goroutine started by a [go] statement and not yet run:
    [go send(m)], where [send] is the method value [p.Send] and [m] the
    message, both evaluated by the [go] statement.  A send yields [None]
    when the host does not take the message. *)
Inductive Goroutine : Type :=
| GoSend (send : Msg -> World -> option World) (m : Msg).

Inductive Event : Type :=
| EvReleaseTerminal (r : outcome error)
| EvRestoreTerminal (r : outcome error)
| EvGetProxies (r : outcome (ReaderProxy * WriterProxy * WriterProxy))
| EvSetStdin (rd : io_Reader) (r : outcome unit)
| EvSetStdout (w : io_Writer) (r : outcome unit)
| EvSetStderr (w : io_Writer) (r : outcome unit)
| EvRun (r : outcome error)
| EvCallback (e : error) (r : outcome Msg)
| EvGo (g : Goroutine)
| EvRead (name : string) (b : bytes) (r : outcome (bytes * Z * error))
| EvWrite (name : string) (b : bytes) (r : outcome (bytes * Z * error))
| EvHandler (b : bytes) (n : Z) (e : error) (r : outcome bytes).

Record State : Type := mkState {
  world : World;
  goroutines : list Goroutine
}.

(** A computation: from a state to an outcome, the state it leaves and the
    events it produced, oldest first. *)
Definition M (A : Type) : Type := State -> outcome A * State * list Event.

Definition ret {A : Type} (a : A) : M A := fun s => (Ret a, s, []).

Definition panic {A : Type} (msg : string) : M A := fun s => (Panic msg, s, []).

Definition bind {A B : Type} (m : M A) (k : A -> M B) : M B :=
  fun s =>
    match m s with
    | (Ret a, s1, evs1) =>
        match k a s1 with
        | (o, s2, evs2) => (o, s2, evs1 ++ evs2)
        end
    | (Panic msg, s1, evs1) => (Panic msg, s1, evs1)
    end.

(** Run an outside call on the world and record it with its outcome; [view]
    selects what the event shows of the result. *)
Definition call {A B : Type} (ev : outcome B -> Event) (view : A -> B) (f : ext A) : M A :=
  fun s =>
    match f (world s) with
    | (o, w) => (o, mkState w (goroutines s), [ev (outcome_map view o)])
    end.

(** The statement [go g]: the goroutine is started, not run. *)
Definition go (g : Goroutine) : M unit :=
  fun s => (Ret tt, mkState (world s) (goroutines s ++ [g]), [EvGo g]).

Notation "x <- m ;; k" := (bind m (fun x => k))
  (at level 61, m at next level, right associativity).
Notation "' pat <- m ;; k" := (bind m (fun x => match x with pat => k end))
  (at level 61, pat pattern, m at next level, right associativity).
Notation "m ;;; k" := (bind m (fun _ => k))
  (at level 61, right associativity).

(** ** [ReaderProxy.Read] and [WriterProxy.Write] *)

(** [r.Read(b)] on an [io.Reader]: dynamic dispatch, with
    [func (s ReaderProxy) Read(b []byte) (n int, err error)]. *)
Fixpoint io_Read (r : io_Reader) (b : bytes) {struct r} : M (bytes * Z * error) :=
  match r with
  | OpaqueReader name read => call (EvRead name b) (fun x => x) (read b)
  | ProxyReader s => ReaderProxy_Read s b
  end
with ReaderProxy_Read (s : ReaderProxy) (b : bytes) {struct s} : M (bytes * Z * error) :=
  match s with
  | Build_ReaderProxy _ From Handler =>
      (* n, err = s.From.Read(b) *)
      match From with
      | None => panic nil_dereference
      | Some src =>
          '(b, n, err) <- io_Read src b ;;
          (* s.Handler(b, n, err) *)
          match Handler with
          | None => panic nil_dereference
          | Some h =>
              b <- call (EvHandler b n err) (fun x => x) (h b n err) ;;
              (* return n, err *)
              ret (b, n, err)
          end
      end
  end.

(** [w.Write(b)] on an [io.Writer], with
    [func (s WriterProxy) Write(b []byte) (n int, err error)]: the named
    results [n] and [err] hold their zero values until they are assigned. *)
Fixpoint io_Write (w : io_Writer) (b : bytes) {struct w} : M (bytes * Z * error) :=
  match w with
  | OpaqueWriter name write => call (EvWrite name b) (fun x => x) (write b)
  | ProxyWriter s => WriterProxy_Write s b
  end
with WriterProxy_Write (s : WriterProxy) (b : bytes) {struct s} : M (bytes * Z * error) :=
  match s with
  | Build_WriterProxy _ From Handler =>
      let n := 0%Z in
      let err : error := None in
      (* s.Handler(b, n, err) *)
      match Handler with
      | None => panic nil_dereference
      | Some h =>
          b <- call (EvHandler b n err) (fun x => x) (h b n err) ;;
          (* n, err = s.From.Write(b) *)
          match From with
          | None => panic nil_dereference
          | Some dst =>
              '(b, n, err) <- io_Write dst b ;;
              (* return n, err *)
              ret (b, n, err)
          end
      end
  end.

(** ** Commands *)

(** [type ExecCallback func(error) Msg]. *)
Definition ExecCallback : Type := error -> ext Msg.

(** [type ExecCommand interface]: the methods may change the receiver, so
    each yields the receiver it leaves.  A stream argument is an interface
    value, [None] when it is nil. *)
Class ExecCommand (C : Type) : Type := {
  Run : C -> ext (error * C);
  SetStdin : C -> option io_Reader -> ext (unit * C);
  SetStdout : C -> option io_Writer -> ext (unit * C);
  SetStderr : C -> option io_Writer -> ext (unit * C);
  GetProxies : C -> ext (ReaderProxy * WriterProxy * WriterProxy * C)
}.

(** The fields of [exec.Cmd] (package [os/exec]) this file reads or writes,
    with the path and arguments that identify the process. *)
Record exec_Cmd : Type := mkCmd {
  Path : string;
  Args : list string;
  Stdin : option io_Reader;
  Stdout : option io_Writer;
  Stderr : option io_Writer
}.

(** [type OsExecCommand struct]: [Cmd] is the embedded [*exec.Cmd], [None]
    when the pointer is nil. *)
Record OsExecCommand : Type := mkOsExecCommand {
  Cmd : option exec_Cmd;
  StdinProxy : ReaderProxy;
  StdoutProxy : WriterProxy;
  StderrProxy : WriterProxy
}.

(** Assignments through the embedded pointer: [c.Stdin = r] and the like. *)
Definition OsExecCommand_set_Cmd (c : OsExecCommand) (cmd : exec_Cmd) : OsExecCommand :=
  mkOsExecCommand (Some cmd) (StdinProxy c) (StdoutProxy c) (StderrProxy c).
Definition exec_Cmd_set_Stdin (cmd : exec_Cmd) (r : option io_Reader) : exec_Cmd :=
  mkCmd (Path cmd) (Args cmd) r (Stdout cmd) (Stderr cmd).
Definition exec_Cmd_set_Stdout (cmd : exec_Cmd) (wr : option io_Writer) : exec_Cmd :=
  mkCmd (Path cmd) (Args cmd) (Stdin cmd) wr (Stderr cmd).
Definition exec_Cmd_set_Stderr (cmd : exec_Cmd) (wr : option io_Writer) : exec_Cmd :=
  mkCmd (Path cmd) (Args cmd) (Stdin cmd) (Stdout cmd) wr.

Definition wrapExecCommand (c : option exec_Cmd) (stdinProxy : ReaderProxy)
    (stdoutProxy stderrProxy : WriterProxy) : OsExecCommand :=
  {| Cmd := c;
     StdinProxy := stdinProxy;
     StdoutProxy := stdoutProxy;
     StderrProxy := stderrProxy |}.

Definition OsExecCommand_GetProxies (c : OsExecCommand)
  : ext (ReaderProxy * WriterProxy * WriterProxy * OsExecCommand) :=
  fun w => (Ret (StdinProxy c, StdoutProxy c, StderrProxy c, c), w).

Definition OsExecCommand_SetStdin (c : OsExecCommand) (r : option io_Reader)
  : ext (unit * OsExecCommand) :=
  fun w =>
    match Cmd c with
    | None => (Panic nil_dereference, w)
    | Some cmd =>
        (* If unset, have the command use the same input as the terminal. *)
        match Stdin cmd with
        | None =>
            (Ret (tt, OsExecCommand_set_Cmd c (exec_Cmd_set_Stdin cmd r)), w)
        | Some _ => (Ret (tt, c), w)
        end
    end.

Definition OsExecCommand_SetStdout (c : OsExecCommand) (wr : option io_Writer)
  : ext (unit * OsExecCommand) :=
  fun w =>
    match Cmd c with
    | None => (Panic nil_dereference, w)
    | Some cmd =>
        (* If unset, have the command use the same output as the terminal. *)
        match Stdout cmd with
        | None =>
            (Ret (tt, OsExecCommand_set_Cmd c (exec_Cmd_set_Stdout cmd wr)), w)
        | Some _ => (Ret (tt, c), w)
        end
    end.

Definition OsExecCommand_SetStderr (c : OsExecCommand) (wr : option io_Writer)
  : ext (unit * OsExecCommand) :=
  fun w =>
    match Cmd c with
    | None => (Panic nil_dereference, w)
    | Some cmd =>
        (* If unset, use stderr for the command's stderr *)
        match Stderr cmd with
        | None =>
            (Ret (tt, OsExecCommand_set_Cmd c (exec_Cmd_set_Stderr cmd wr)), w)
        | Some _ => (Ret (tt, c), w)
        end
    end.

(** [Run] is promoted from the embedded [*exec.Cmd]; what the platform does
    with the process is the parameter [os_Run]. *)
Definition OsExecCommand_Run (os_Run : exec_Cmd -> ext (error * exec_Cmd))
    (c : OsExecCommand) : ext (error * OsExecCommand) :=
  fun w =>
    match Cmd c with
    | None => (Panic nil_dereference, w)
    | Some cmd =>
        match os_Run cmd w with
        | (Ret (err, cmd'), w') =>
            (Ret (err, OsExecCommand_set_Cmd c cmd'), w')
        | (Panic msg, w') => (Panic msg, w')
        end
    end.

Definition OsExecCommand_ExecCommand (os_Run : exec_Cmd -> ext (error * exec_Cmd))
  : ExecCommand OsExecCommand :=
  {| Run := OsExecCommand_Run os_Run;
     SetStdin := OsExecCommand_SetStdin;
     SetStdout := OsExecCommand_SetStdout;
     SetStderr := OsExecCommand_SetStderr;
     GetProxies := OsExecCommand_GetProxies |}.

(** ** The hand-off controller *)

(** The members of [Program] that [exec] uses; the type is declared outside
    this file, so they are parameters.  [Send] is run by the goroutine that
    [exec] starts: it yields [None] when the host does not take the
    message. *)
Record Program : Type := mkProgram {
  input : option io_Reader;
  output : option io_Writer;
  ReleaseTerminal : ext error;
  RestoreTerminal : ext error;
  Send : Msg -> World -> option World
}.

Section Controller.

Context {C : Type} {command : ExecCommand C}.

(** [func (p *Program) exec(c ExecCommand, fn ExecCallback)].  The command
    is passed by reference; the result is the command as [exec] leaves it. *)
Definition exec (p : Program) (c : C) (fn : option ExecCallback) : M C :=
  err <- call EvReleaseTerminal (fun x => x) (ReleaseTerminal p) ;;
  match err with
  | Some _ =>
      (* If we can't release input, abort. *)
      match fn with
      | Some f =>
          msg <- call (EvCallback err) (fun x => x) (f err) ;;
          go (GoSend (Send p) msg) ;;;
          ret c
      | None => ret c
      end
  | None =>
      '(stdinProxy, stdoutProxy, stderrProxy, c) <- call EvGetProxies fst (GetProxies c) ;;
      let stdinProxy := ReaderProxy_set_From stdinProxy (input p) in
      let stdoutProxy := WriterProxy_set_From stdoutProxy (output p) in
      let stderrProxy := WriterProxy_set_From stderrProxy (output p) in
      '(_, c) <- call (EvSetStdin (ProxyReader stdinProxy)) fst
                      (SetStdin c (Some (ProxyReader stdinProxy))) ;;
      '(_, c) <- call (EvSetStdout (ProxyWriter stdoutProxy)) fst
                      (SetStdout c (Some (ProxyWriter stdoutProxy))) ;;
      '(_, c) <- call (EvSetStderr (ProxyWriter stderrProxy)) fst
                      (SetStderr c (Some (ProxyWriter stderrProxy))) ;;
      (* Execute system command. *)
      '(err, c) <- call EvRun fst (Run c) ;;
      match err with
      | Some _ =>
          call EvRestoreTerminal (fun x => x) (RestoreTerminal p) ;;; (* also try to restore the terminal. *)
          match fn with
          | Some f =>
              msg <- call (EvCallback err) (fun x => x) (f err) ;;
              go (GoSend (Send p) msg) ;;;
              ret c
          | None => ret c
          end
      | None =>
          (* Have the program re-capture input. *)
          err <- call EvRestoreTerminal (fun x => x) (RestoreTerminal p) ;;
          match fn with
          | Some f =>
              msg <- call (EvCallback err) (fun x => x) (f err) ;;
              go (GoSend (Send p) msg) ;;;
              ret c
          | None => ret c
          end
      end
  end.

End Controller.




(** ** Reading a trace *)

Definition is_restore (e : Event) : bool :=
  match e with EvRestoreTerminal _ => true | _ => false end.

Definition is_run (e : Event) : bool :=
  match e with EvRun _ => true | _ => false end.

Definition is_go (e : Event) : bool :=
  match e with EvGo _ => true | _ => false end.

(** The arguments the completion callback was called with, in order. *)
Definition callback_args (evs : list Event) : list error :=
  flat_map (fun e => match e with EvCallback a _ => [a] | _ => [] end) evs.

(** The call recorded by the event returned; [go] always does. *)
Definition ev_returned (e : Event) : bool :=
  match e with
  | EvReleaseTerminal r | EvRestoreTerminal r | EvRun r => returned r
  | EvGetProxies r => returned r
  | EvSetStdin _ r => returned r
  | EvSetStdout _ r | EvSetStderr _ r => returned r
  | EvCallback _ r => returned r
  | EvGo _ => true
  | EvRead _ _ r | EvWrite _ _ r => returned r
  | EvHandler _ _ _ r => returned r
  end.

(** An observer that does nothing: [func(b []byte, n int, err error) {}]. *)
Definition noop_Handler : HandlerFunc := fun b _ _ w => (Ret b, w).

End Tea.

(** ** A concrete host, for running the definitions *)

Module Demo.

(** The world is the log of the outside calls made so far. *)
Definition World : Type := list string.

Definition Msg : Type := string.

Definition step {A : Type} (tag : string) (a : A) : @ext World A :=
  fun w => (Ret a, w ++ [tag]).

Definition abc : bytes := [x61; x62; x63].

Definition zeros : bytes := [x00; x00; x00].

Definition stdin : @io_Reader World :=
  OpaqueReader "stdin" (fun _ => step "read" (abc, 3%Z, None)).

Definition short_write : error := Some (errors_New "short write").

Definition stdout : @io_Writer World :=
  OpaqueWriter "stdout" (fun b => step "write" (b, 2%Z, short_write)).

Definition observer : @HandlerFunc World := fun b _ _ => step "observe" b.

(** An observer that overwrites the buffer it is shown. *)
Definition scrubber : @HandlerFunc World := fun b _ _ => step "scrub" (map (fun _ => x00) b).

Definition reader_proxy : @ReaderProxy World :=
  Build_ReaderProxy None None (Some observer).

Definition writer_proxy : @WriterProxy World :=
  Build_WriterProxy None None (Some observer).

Definition vim : @exec_Cmd World := mkCmd "vim" ["file.txt"%string] None None None.

Definition command : @OsExecCommand World :=
  wrapExecCommand (Some vim) reader_proxy writer_proxy writer_proxy.

(** A command whose caller kept the terminal's own input. *)
Definition command_with_stdin : @OsExecCommand World :=
  wrapExecCommand (Some (mkCmd "vim" ["file.txt"%string] (Some stdin) None None))
                  reader_proxy writer_proxy writer_proxy.

Definition os_Run (r : error) : @exec_Cmd World -> @ext World (error * @exec_Cmd World) :=
  fun cmd => step "run" (r, cmd).

(** A host whose [Send] never finds the loop ready. *)
Definition program (release restore : error) : @Program World Msg :=
  mkProgram (Some stdin) (Some stdout)
            (step "release" release) (step "restore" restore)
            (fun _ _ => None).

Definition callback : @ExecCallback World Msg :=
  fun e => step "callback"
             match e with
             | None => "done"%string
             | Some (errors_New msg) => msg
             end.

Definition s0 : @State World Msg := mkState [] [].

Definition E_run : error_value := errors_New "exit status 1".
Definition E_restore : error_value := errors_New "restore failed".

Definition run_exec (release run restore : error) (fn : option (@ExecCallback World Msg)) :=
  exec (command := OsExecCommand_ExecCommand (os_Run run))
       (program release restore) command fn s0.

(** Release, run and restore all succeed. *)
Definition run_ok := run_exec None None None (Some callback).

(** The command fails and so does the restore. *)
Definition run_failed := run_exec None (Some E_run) (Some E_restore) (Some callback).


(** The command fails and nobody listens. *)
Definition run_failed_unheard := run_exec None (Some E_run) None None.

End Demo.

(** ** Requests *)

Section Requests.

Context {World Msg : Type}.

(** [type execMsg struct]: the command and the callback of one request. *)
Record execMsg (C : Type) : Type := mk_execMsg {
  execMsg_cmd : C;
  execMsg_fn : option (@ExecCallback World Msg)
}.

(** [func Exec(c ExecCommand, fn ExecCallback) Cmd].  A [Cmd] is a
    [func() Msg]; the message this one yields is an [execMsg]. *)
Definition Exec {C : Type} (c : C) (fn : option (@ExecCallback World Msg))
  : unit -> execMsg C :=
  fun _ => mk_execMsg c fn.

(** [func ExecProcess(c *exec.Cmd, stdinProxy ReaderProxy, stdoutProxy
    WriterProxy, stderrProxy WriterProxy, fn ExecCallback) Cmd]. *)
Definition ExecProcess (c : option (@exec_Cmd World)) (stdinProxy : @ReaderProxy World)
    (stdoutProxy stderrProxy : @WriterProxy World)
    (fn : option (@ExecCallback World Msg))
  : unit -> execMsg (@OsExecCommand World) :=
  Exec (wrapExecCommand c stdinProxy stdoutProxy stderrProxy) fn.

(** ** More about traces *)

Definition is_release (e : @Event World Msg) : bool :=
  match e with EvReleaseTerminal _ => true | _ => false end.

(** The calls [exec] makes on the command. *)
Definition is_command_call (e : @Event World Msg) : bool :=
  match e with
  | EvGetProxies _ | EvSetStdin _ _ | EvSetStdout _ _ | EvSetStderr _ _ | EvRun _ => true
  | _ => false
  end.

(** The stream a reader is stacked on and the observers on the way to it,
    the one nearest the stream first; [None] when a [From] or a [Handler] on
    the way is nil. *)
Fixpoint Reader_chain (r : @io_Reader World)
  : option (string * (bytes -> @ext World (bytes * Z * error)) * list (@HandlerFunc World)) :=
  match r with
  | OpaqueReader name read => Some (name, read, [])
  | ProxyReader s => ReaderProxy_chain s
  end
with ReaderProxy_chain (s : @ReaderProxy World)
  : option (string * (bytes -> @ext World (bytes * Z * error)) * list (@HandlerFunc World)) :=
  match s with
  | Build_ReaderProxy _ (Some src) (Some h) =>
      match Reader_chain src with
      | Some (name, read, hs) => Some (name, read, hs ++ [h])
      | None => None
      end
  | Build_ReaderProxy _ _ _ => None
  end.

(** The observers on the way to the stream a writer is stacked on, the
    outermost first, and that stream. *)
Fixpoint Writer_chain (w : @io_Writer World)
  : option (list (@HandlerFunc World) * string * (bytes -> @ext World (bytes * Z * error))) :=
  match w with
  | OpaqueWriter name write => Some ([], name, write)
  | ProxyWriter s => WriterProxy_chain s
  end
with WriterProxy_chain (s : @WriterProxy World)
  : option (list (@HandlerFunc World) * string * (bytes -> @ext World (bytes * Z * error))) :=
  match s with
  | Build_WriterProxy _ (Some dst) (Some h) =>
      match Writer_chain dst with
      | Some (hs, name, write) => Some (h :: hs, name, write)
      | None => None
      end
  | Build_WriterProxy _ _ _ => None
  end.

(** Call the observers [hs] one after the other, each once, with [n] and
    [err] and with the buffer the one before left, until one panics. *)
Fixpoint observe_all (hs : list (@HandlerFunc World)) (n : Z) (err : error)
    (b : bytes) (w : World) : outcome bytes * World * list (@Event World Msg) :=
  match hs with
  | [] => (Ret b, w, [])
  | h :: hs' =>
      match h b n err w with
      | (Ret b1, w1) =>
          match observe_all hs' n err b1 w1 with
          | (o, w2, evs) => (o, w2, EvHandler b n err (Ret b1) :: evs)
          end
      | (Panic msg, w1) => (Panic msg, w1, [EvHandler b n err (Panic msg)])
      end
  end.

(** Read the stream once, then call the observers with what it yielded. *)
Definition read_then_observe (name : string)
    (read : bytes -> @ext World (bytes * Z * error)) (hs : list (@HandlerFunc World))
    (b : bytes) (s : @State World Msg)
  : outcome (bytes * Z * error) * @State World Msg * list (@Event World Msg) :=
  match read b (world s) with
  | (Ret (b1, n, err), w1) =>
      match observe_all hs n err b1 w1 with
      | (o, w2, evs) =>
          (outcome_map (fun b2 => (b2, n, err)) o,
           mkState w2 (goroutines s),
           EvRead name b (Ret (b1, n, err)) :: evs)
      end
  | (Panic msg, w1) =>
      (Panic msg, mkState w1 (goroutines s), [EvRead name b (Panic msg)])
  end.

(** Call the observers with count 0 and a nil error, then write the stream
    once, with the buffer they left. *)
Definition observe_then_write (hs : list (@HandlerFunc World)) (name : string)
    (write : bytes -> @ext World (bytes * Z * error))
    (b : bytes) (s : @State World Msg)
  : outcome (bytes * Z * error) * @State World Msg * list (@Event World Msg) :=
  match observe_all hs 0%Z None b (world s) with
  | (Ret b1, w1, evs) =>
      match write b1 w1 with
      | (o, w2) => (o, mkState w2 (goroutines s), evs ++ [EvWrite name b1 o])
      end
  | (Panic msg, w1, evs) => (Panic msg, mkState w1 (goroutines s), evs)
  end.

(** Whether following [From] from proxy to proxy ends at a stream, and not
    at a nil [From]. *)
Fixpoint Reader_bound (r : @io_Reader World) : bool :=
  match r with
  | OpaqueReader _ _ => true
  | ProxyReader s => ReaderProxy_bound s
  end
with ReaderProxy_bound (s : @ReaderProxy World) : bool :=
  match s with
  | Build_ReaderProxy _ (Some src) _ => Reader_bound src
  | Build_ReaderProxy _ None _ => false
  end.

Fixpoint Writer_bound (w : @io_Writer World) : bool :=
  match w with
  | OpaqueWriter _ _ => true
  | ProxyWriter s => WriterProxy_bound s
  end
with WriterProxy_bound (s : @WriterProxy World) : bool :=
  match s with
  | Build_WriterProxy _ (Some dst) _ => Writer_bound dst
  | Build_WriterProxy _ None _ => false
  end.

End Requests.

(** Proxies stacked on the concrete host's streams. *)
Module DemoChain.

Import Demo.

(** Two reader proxies over the host's input: the inner one observes, the
    outer one scrubs. *)
Definition stacked_reader : @io_Reader World :=
  ProxyReader
    (Build_ReaderProxy None
       (Some (ProxyReader (Build_ReaderProxy None (Some stdin) (Some observer))))
       (Some scrubber)).

(** Two writer proxies over the host's output: the outer one scrubs, the
    inner one observes. *)
Definition stacked_writer : @io_Writer World :=
  ProxyWriter
    (Build_WriterProxy None
       (Some (ProxyWriter (Build_WriterProxy None (Some stdout) (Some observer))))
       (Some scrubber)).

(** A platform on which starting the process panics. *)
Definition os_Run_panics : @exec_Cmd World -> @ext World (error * @exec_Cmd World) :=
  fun _ w => (Panic "fork/exec: resource temporarily unavailable"%string, w ++ ["run"%string]).

(** A command the caller gave its own error stream. *)
Definition command_with_stderr : @exec_Cmd World :=
  mkCmd "less" [] None None (Some stdout).

(** A request for a process whose [*exec.Cmd] is nil. *)
(** The proxies of the command before [exec] binds them, one more proxy
    stacked on each. *)
Definition unbound_reader : @ReaderProxy World :=
  Build_ReaderProxy None (Some (ProxyReader reader_proxy)) (Some scrubber).

Definition unbound_writer : @WriterProxy World :=
  Build_WriterProxy None (Some (ProxyWriter writer_proxy)) (Some scrubber).

Definition nil_request : execMsg (@OsExecCommand World) :=
  ExecProcess None reader_proxy writer_proxy writer_proxy (Some callback) tt.


Definition less_request : execMsg (@OsExecCommand World) :=
  ExecProcess (Some command_with_stderr) reader_proxy writer_proxy writer_proxy
              (Some callback) tt.

Definition run_request (run : @exec_Cmd World -> @ext World (error * @exec_Cmd World))
    (m : execMsg (@OsExecCommand World)) :=
  exec (command := OsExecCommand_ExecCommand run) (program None None)
       (execMsg_cmd m) (execMsg_fn m) s0.


End DemoChain.

(** * Properties *)

Section ProxyProperties.

Context {World Msg : Type}.

Lemma State_eta (s : @State World Msg) : mkState (world s) (goroutines s) = s.
Proof. destruct s; reflexivity. Qed.

(** One step of [bind] when the first computation returns. *)
Lemma bind_Ret {A B : Type} (m : @M World Msg A) (k : A -> @M World Msg B)
      (s s1 : State) (a : A) (evs1 : list Event) :
  m s = (Ret a, s1, evs1) ->
  bind m k s = (let '(o, s2, evs2) := k a s1 in (o, s2, evs1 ++ evs2)).
Proof.
  intros Hm. unfold bind. rewrite Hm. destruct (k a s1) as [[o s2] evs2]. reflexivity.
Qed.

(** A panic in the first computation ends [bind]. *)
Lemma bind_Panic {A B : Type} (m : @M World Msg A) (k : A -> @M World Msg B)
      (s s1 : State) (msg : string) (evs1 : list Event) :
  m s = (Panic msg, s1, evs1) ->
  bind m k s = (Panic msg, s1, evs1).
Proof. intros Hm. unfold bind. rewrite Hm. reflexivity. Qed.

(** C3. [ReaderProxy.Read] first delegates to the wrapped source [S]: the
    events of [S.Read] come first and the observer runs in the state [S]
    left.  It then calls the observer exactly once, with the buffer, count
    and error [S.Read] produced, and returns that count and that error.  The
    proxy itself never touches the buffer: its contents are those the
    observer left, hence those of [S] for an observer that leaves them. *)
Theorem ReaderProxy_Read_transparent :
  forall (emb : option io_Reader) (S : io_Reader) (O : HandlerFunc)
         (b : bytes) (s : @State World Msg)
         (b1 : bytes) (n : Z) (err : error) (s1 : State) (evs1 : list Event)
         (ob : outcome bytes) (w2 : World),
    io_Read S b s = (Ret (b1, n, err), s1, evs1) ->
    O b1 n err (world s1) = (ob, w2) ->
    ReaderProxy_Read (Build_ReaderProxy emb (Some S) (Some O)) b s
    = (outcome_map (fun b2 => (b2, n, err)) ob,
       mkState w2 (goroutines s1),
       evs1 ++ [EvHandler b1 n err ob])
    /\ (ob = Ret b1 ->
        fst (fst (ReaderProxy_Read (Build_ReaderProxy emb (Some S) (Some O)) b s))
        = fst (fst (io_Read S b s))).
Proof.
  intros emb S O b s b1 n err s1 evs1 ob w2 HS HO.
  assert (Hread :
    ReaderProxy_Read (Build_ReaderProxy emb (Some S) (Some O)) b s
    = (outcome_map (fun b2 => (b2, n, err)) ob,
       mkState w2 (goroutines s1),
       evs1 ++ [EvHandler b1 n err ob])).
  { cbn [ReaderProxy_Read].
    erewrite bind_Ret by exact HS.
    unfold bind, call, ret. rewrite HO.
    destruct ob as [b2 | msg]; reflexivity. }
  split; [exact Hread |].
  intros ->. rewrite Hread, HS. reflexivity.
Qed.

(** C4. [WriterProxy.Write] calls the observer exactly once and before the
    wrapped sink [W]: the observer's event is the first one, [W.Write] runs
    in the world the observer left and on the buffer it left, and everything
    [W.Write] yields (outcome, state, events) is what the proxy yields. *)
Theorem WriterProxy_Write_observer_first :
  forall (emb : option io_Writer) (W : io_Writer) (O : HandlerFunc)
         (b : bytes) (s : @State World Msg)
         (b1 : bytes) (w1 : World)
         (r : outcome (bytes * Z * error)) (s2 : State) (evs : list Event),
    O b 0%Z None (world s) = (Ret b1, w1) ->
    io_Write W b1 (mkState w1 (goroutines s)) = (r, s2, evs) ->
    WriterProxy_Write (Build_WriterProxy emb (Some W) (Some O)) b s
    = (r, s2, EvHandler b 0%Z None (Ret b1) :: evs).
Proof.
  intros emb W O b s b1 w1 r s2 evs HO HW.
  cbn [WriterProxy_Write].
  unfold bind at 1. unfold call. rewrite HO. cbn [outcome_map].
  destruct r as [[[b2 n] err] | msg].
  - erewrite bind_Ret by exact HW. unfold ret. rewrite app_nil_r. reflexivity.
  - erewrite bind_Panic by exact HW. reflexivity.
Qed.

(** The observer of a writer proxy is called with count 0 and a nil error,
    whatever the sink reports afterwards: the named results are passed
    before [s.From.Write] assigns them. *)
Lemma WriterProxy_Write_observer_args :
  forall (emb : option io_Writer) (W : io_Writer) (O : HandlerFunc)
         (b : bytes) (s : @State World Msg),
  exists (ob : outcome bytes) (rest : list Event),
    snd (WriterProxy_Write (Build_WriterProxy emb (Some W) (Some O)) b s)
    = EvHandler b 0%Z None ob :: rest.
Proof.
  intros emb W O b s.
  cbn [WriterProxy_Write]. unfold bind at 1. unfold call.
  destruct (O b 0%Z None (world s)) as [[b1 | msg] w1]; cbn [outcome_map].
  - destruct (bind _ _ _) as [[o s2] evs2]. cbn. eauto.
  - cbn. eauto.
Qed.

(** C6, as the code has it.  A proxy whose [Handler] is nil cannot be used.
    [Read] first reads the wrapped source, and when that has returned it
    panics with a nil dereference, in the state the source left and with the
    source's events only; [Write] panics with a nil dereference before
    anything else happens.  A proxy is usable with a [Handler] that is
    present: with one that does nothing, [Read] and [Write] yield the
    outcome and the state of the wrapped stream's own operation, and add
    only the observer's event. *)
Theorem proxy_needs_Handler :
  (forall (emb : option io_Reader) (S : io_Reader) (b : bytes) (s : @State World Msg),
      ReaderProxy_Read (Build_ReaderProxy emb (Some S) None) b s
      = (let '(o, s1, evs) := io_Read S b s in
         (match o with
          | Ret _ => Panic nil_dereference
          | Panic msg => Panic msg
          end, s1, evs)))
  /\ (forall (emb : option io_Reader) (b : bytes) (s : @State World Msg),
      ReaderProxy_Read (Build_ReaderProxy emb None None) b s
      = (Panic nil_dereference, s, []))
  /\ (forall (emb from : option io_Writer) (b : bytes) (s : @State World Msg),
      WriterProxy_Write (Build_WriterProxy emb from None) b s
      = (Panic nil_dereference, s, []))
  /\ (forall (emb : option io_Reader) (S : io_Reader) (b : bytes) (s : @State World Msg),
      ReaderProxy_Read (Build_ReaderProxy emb (Some S) (Some noop_Handler)) b s
      = (let '(o, s1, evs) := io_Read S b s in
         (o, s1,
          evs ++ match o with
                 | Ret (b1, n, err) => [EvHandler b1 n err (Ret b1)]
                 | Panic _ => []
                 end)))
  /\ (forall (emb : option io_Writer) (W : io_Writer) (b : bytes) (s : @State World Msg),
      WriterProxy_Write (Build_WriterProxy emb (Some W) (Some noop_Handler)) b s
      = (let '(o, s1, evs) := io_Write W b s in
         (o, s1, EvHandler b 0%Z None (Ret b) :: evs))).
Proof.
  split; [| split; [| split; [| split]]].
  - intros emb S b s. cbn [ReaderProxy_Read].
    destruct (io_Read S b s) as [[[[[b1 n] err] | msg] s1] evs1] eqn:HS.
    + erewrite bind_Ret by exact HS. unfold panic. rewrite app_nil_r. reflexivity.
    + erewrite bind_Panic by exact HS. reflexivity.
  - reflexivity.
  - reflexivity.
  - intros emb S b s. cbn [ReaderProxy_Read].
    destruct (io_Read S b s) as [[[[[b1 n] err] | msg] s1] evs1] eqn:HS.
    + erewrite bind_Ret by exact HS.
      unfold bind, call, ret, noop_Handler. cbn.
      rewrite State_eta. reflexivity.
    + erewrite bind_Panic by exact HS. rewrite app_nil_r. reflexivity.
  - intros emb W b s. cbn [WriterProxy_Write].
    unfold bind at 1. unfold call, noop_Handler. cbn [outcome_map].
    rewrite State_eta.
    destruct (io_Write W b s) as [[[[[b1 n] err] | msg] s1] evs1] eqn:HW.
    + erewrite bind_Ret by exact HW. unfold ret. rewrite app_nil_r. reflexivity.
    + erewrite bind_Panic by exact HW. reflexivity.
Qed.

(** C5, as the code has it.  On a [Read] the observer is called with the
    buffer, the count and the error the read of the source produced.  On a
    [Write] the observer is called before the sink is written, with the
    buffer about to be written, count 0 and a nil error, whatever the sink
    then transfers or reports: the sink's result goes to the caller only. *)
Theorem proxy_observer_arguments :
  (forall (emb : option io_Reader) (S : io_Reader) (O : HandlerFunc)
          (b : bytes) (s : @State World Msg)
          (b1 : bytes) (n : Z) (err : error) (s1 : State) (evs1 : list Event)
          (ob : outcome bytes) (w2 : World),
      io_Read S b s = (Ret (b1, n, err), s1, evs1) ->
      O b1 n err (world s1) = (ob, w2) ->
      snd (ReaderProxy_Read (Build_ReaderProxy emb (Some S) (Some O)) b s)
      = evs1 ++ [EvHandler b1 n err ob]
      /\ world (snd (fst (ReaderProxy_Read (Build_ReaderProxy emb (Some S) (Some O)) b s)))
         = w2)
  /\ (forall (emb : option io_Writer) (W : io_Writer) (O : HandlerFunc)
             (b : bytes) (s : @State World Msg) (ob : outcome bytes) (w1 : World),
      O b 0%Z None (world s) = (ob, w1) ->
      exists o s' rest,
        WriterProxy_Write (Build_WriterProxy emb (Some W) (Some O)) b s
        = (o, s', EvHandler b 0%Z None ob :: rest)
        /\ match ob with
           | Ret b1 => io_Write W b1 (mkState w1 (goroutines s)) = (o, s', rest)
           | Panic msg => o = Panic msg /\ s' = mkState w1 (goroutines s) /\ rest = []
           end).
Proof.
  split.
  - intros emb S O b s b1 n err s1 evs1 ob w2 HS HO.
    cbn [ReaderProxy_Read]. erewrite bind_Ret by exact HS.
    unfold bind, call, ret. rewrite HO.
    destruct ob as [b2 | msg]; split; reflexivity.
  - intros emb W O b s ob w1 HO.
    cbn [WriterProxy_Write]. unfold bind at 1. unfold call. rewrite HO.
    destruct ob as [b1 | msg]; cbn [outcome_map].
    + destruct (io_Write W b1 (mkState w1 (goroutines s)))
        as [[[[[b2 n] err] | msg] s2] evs2] eqn:HW.
      * erewrite bind_Ret by exact HW. unfold ret. rewrite app_nil_r.
        do 3 eexists. split; reflexivity.
      * erewrite bind_Panic by exact HW. do 3 eexists. split; reflexivity.
    + do 3 eexists. split; [reflexivity |]. repeat split.
Qed.

End ProxyProperties.

Section ControllerProperties.

Context {World Msg C : Type} {command : @ExecCommand World C}.

(** Split on the outcome of the next outside call in the hypothesis [H], or
    on the value a variable holds. *)
Ltac next_call H :=
  match type of H with
  | context [match ?x with _ => _ end] =>
      first
        [ is_var x; destruct x
        | match type of x with
          | (outcome _ * _)%type =>
              let w := fresh "w" in destruct x as [[? | ?] w]
          end ];
      cbn in H
  end.

(** Every execution of [exec], one goal per path through it. *)
Ltac exec_paths H :=
  unfold exec, bind, call, go, ret in H; cbn in H;
  repeat next_call H;
  inversion H; subst; clear H; cbn in *.

(** Use what is known about the events of the path at hand. *)
Ltac trace_facts :=
  repeat match goal with
         | H : False |- _ => destruct H
         | H : _ \/ _ |- _ => destruct H
         | H : _ /\ _ |- _ => destruct H
         | H : @eq Event _ _ |- _ => first [discriminate H | inversion H; subst; clear H]
         | H : @eq (option _) None (Some _) |- _ => discriminate H
         | H : @eq (option _) (Some _) _ |- _ => first [discriminate H | inversion H; subst; clear H]
         | H : @eq (outcome _) _ _ |- _ => first [discriminate H | inversion H; subst; clear H]
         end.


(** On every path of [exec]: where [ReleaseTerminal] succeeded and [Run]
    returned [r], one [RestoreTerminal] event is recorded, also when that
    call panics.  When it returns
    [re] and a callback is present, the callback is called once: with the
    failure of [Run] when [r] is one, whatever [re] is, and with [re] when
    [Run] returned no failure. *)
Lemma exec_trace_restores_once :
  forall (p : Program) (c : C) (fn : option ExecCallback)
         (s : @State World Msg) (o : outcome C) (s' : State) (evs : list Event)
         (r : error),
    exec p c fn s = (o, s', evs) ->
    In (EvReleaseTerminal (Ret None)) evs ->
    In (EvRun (Ret r)) evs ->
    List.length (filter is_restore evs) = 1
    /\ (forall (f : ExecCallback) (re : error),
           fn = Some f ->
           In (EvRestoreTerminal (Ret re)) evs ->
           callback_args evs
           = [match r with
              | Some E => Some E
              | None => re
              end]).
Proof.
  intros p c fn s o s' evs r H Hrel Hrun.
  exec_paths H.
  all: trace_facts.
  all: split; [reflexivity |].
  all: intros; trace_facts; reflexivity.
Qed.

(** On every path of [exec]: where [ReleaseTerminal] succeeded, the next
    event is that of [GetProxies].  If no call panics, [Run] is called.  Whenever [Run] is
    called, it comes straight after [SetStdin], [SetStdout] and [SetStderr],
    called in this order and each with the proxy [GetProxies] gave, its
    [From] set to the program's input for the reader and to the program's
    one output for both writers. *)
Lemma exec_trace_wiring_order :
  forall (p : Program) (c : C) (fn : option ExecCallback)
         (s : @State World Msg) (o : outcome C) (s' : State) (evs : list Event),
    exec p c fn s = (o, s', evs) ->
    In (EvReleaseTerminal (Ret None)) evs ->
    (exists g rest, evs = EvReleaseTerminal (Ret None) :: EvGetProxies g :: rest)
    /\ (forallb ev_returned evs = true -> exists r, In (EvRun r) evs)
    /\ (forall r, In (EvRun r) evs ->
        exists (stdinProxy : ReaderProxy) (stdoutProxy stderrProxy : WriterProxy)
               (rest : list Event),
          evs =
            [ EvReleaseTerminal (Ret None);
              EvGetProxies (Ret (stdinProxy, stdoutProxy, stderrProxy));
              EvSetStdin (ProxyReader (ReaderProxy_set_From stdinProxy (input p))) (Ret tt);
              EvSetStdout (ProxyWriter (WriterProxy_set_From stdoutProxy (output p))) (Ret tt);
              EvSetStderr (ProxyWriter (WriterProxy_set_From stderrProxy (output p))) (Ret tt);
              EvRun r ] ++ rest
          /\ filter is_run rest = []).
Proof.
  intros p c fn s o s' evs H Hrel.
  exec_paths H.
  all: trace_facts.
  all: split; [eauto |].
  all: split; [intros; try discriminate; eauto 10 |].
  all: intros; trace_facts.
  all: repeat match goal with u : unit |- _ => destruct u end.
  all: do 4 eexists; split; reflexivity.
Qed.

(** C9. Without a callback, [exec] calls no callback and starts no
    goroutine on any path, so nothing is delivered to the host; and when no
    call it makes panics, it returns to its caller. *)
Theorem exec_without_callback_is_silent :
  forall (p : Program) (c : C)
         (s : @State World Msg) (o : outcome C) (s' : State) (evs : list Event),
    exec p c None s = (o, s', evs) ->
    callback_args evs = []
    /\ filter is_go evs = []
    /\ goroutines s' = goroutines s
    /\ (forallb ev_returned evs = true -> exists c', o = Ret c').
Proof.
  intros p c s o s' evs H.
  exec_paths H.
  all: repeat split; intros; try discriminate; eauto.
Qed.

(** ** Further properties of [exec] *)

(** Find the events before the ones the goal names, then finish with
    [tac]. *)
Ltac split_trace tac :=
  first [ solve [exists (@nil (@Event World Msg)); tac]
        | solve [eexists (_ :: nil); tac]
        | solve [eexists (_ :: _ :: nil); tac]
        | solve [eexists (_ :: _ :: _ :: nil); tac]
        | solve [eexists (_ :: _ :: _ :: _ :: nil); tac]
        | solve [eexists (_ :: _ :: _ :: _ :: _ :: nil); tac]
        | solve [eexists (_ :: _ :: _ :: _ :: _ :: _ :: nil); tac]
        | solve [eexists (_ :: _ :: _ :: _ :: _ :: _ :: _ :: nil); tac]
        | solve [eexists (_ :: _ :: _ :: _ :: _ :: _ :: _ :: _ :: nil); tac] ].

(** Go through the events an event variable can stand for. *)
Ltac event_cases :=
  repeat match goal with
         | H : False |- _ => destruct H
         | H : _ \/ _ |- _ => destruct H
         | H : @eq Event _ ?e |- _ => is_var e; subst e
         end;
  trace_facts.

(** No step of [exec] is retried: [ReleaseTerminal] is the first call and
    the only one of its kind; [Run], [RestoreTerminal], the callback and the
    [go] statement each happen at most once; the goroutines that were
    pending stay, in their order, before the one [exec] may start. *)
Theorem exec_never_retries :
  forall (p : Program) (c : C) (fn : option ExecCallback)
         (s : @State World Msg) (o : outcome C) (s' : State) (evs : list Event),
    exec p c fn s = (o, s', evs) ->
    (exists r rest, evs = EvReleaseTerminal r :: rest /\ filter is_release rest = [])
    /\ List.length (filter is_run evs) <= 1
    /\ List.length (filter is_restore evs) <= 1
    /\ List.length (callback_args evs) <= 1
    /\ (exists started,
           goroutines s' = goroutines s ++ started
           /\ map (fun g => EvGo g) started = filter is_go evs
           /\ List.length started <= 1).
Proof.
  intros p c fn s o s' evs H.
  exec_paths H.
  all: split; [eauto |].
  all: repeat (split; [auto |]).
  all: first [ solve [exists []; rewrite app_nil_r; repeat split; auto]
             | solve [eexists [_]; repeat split; auto] ].
Qed.

(** [RestoreTerminal] is called only straight after [Run] has returned, and
    nothing but the report follows it. *)
Theorem exec_restores_only_after_Run :
  forall (p : Program) (c : C) (fn : option ExecCallback)
         (s : @State World Msg) (o : outcome C) (s' : State) (evs : list Event)
         (re : outcome error),
    exec p c fn s = (o, s', evs) ->
    In (EvRestoreTerminal re) evs ->
    exists pre r post,
      evs = pre ++ EvRun (Ret r) :: EvRestoreTerminal re :: post
      /\ forallb ev_returned pre = true
      /\ filter is_command_call post = [].
Proof.
  intros p c fn s o s' evs re H Hin.
  exec_paths H.
  all: trace_facts.
  all: repeat match goal with u : unit |- _ => destruct u end.
  all: split_trace ltac:(do 2 eexists; repeat split; reflexivity).
Qed.

(** The callback is called only straight after a [ReleaseTerminal] that
    returned a failure, which is then the first call of all and the failure
    the callback is given, or straight after a [RestoreTerminal] that
    returned, with a failure or without: never between a release that
    succeeded and the call of [RestoreTerminal]. *)
Theorem exec_callback_follows_release_failure_or_restore :
  forall (p : Program) (c : C) (fn : option ExecCallback)
         (s : @State World Msg) (o : outcome C) (s' : State) (evs : list Event)
         (e : error) (m : outcome Msg),
    exec p c fn s = (o, s', evs) ->
    In (EvCallback e m) evs ->
    (exists R post, e = Some R /\ evs = EvReleaseTerminal (Ret e) :: EvCallback e m :: post)
    \/ (exists pre re post,
           evs = pre ++ EvRestoreTerminal (Ret re) :: EvCallback e m :: post
           /\ In (EvReleaseTerminal (Ret None)) pre).
Proof.
  intros p c fn s o s' evs e m H Hin.
  exec_paths H.
  all: trace_facts.
  all: repeat match goal with u : unit |- _ => destruct u end.
  all: first [ left; do 2 eexists; split; reflexivity
             | right;
               split_trace ltac:(do 2 eexists; split; [reflexivity | left; reflexivity]) ].
Qed.

(** [exec] has no recover: it returns exactly when every call it made
    returned, and a call that panics is the last thing it does, the panic
    being its own outcome. *)
Theorem exec_panic_propagates :
  forall (p : Program) (c : C) (fn : option ExecCallback)
         (s : @State World Msg) (o : outcome C) (s' : State) (evs : list Event),
    exec p c fn s = (o, s', evs) ->
    (returned o = forallb ev_returned evs)
    /\ (forall e, In e evs -> ev_returned e = false ->
        exists pre, evs = pre ++ [e] /\ forallb ev_returned pre = true).
Proof.
  intros p c fn s o s' evs H.
  exec_paths H.
  all: split; [reflexivity |].
  all: intros ev Hin Hev; event_cases; try discriminate Hev.
  all: split_trace ltac:(split; reflexivity).
Qed.

(** When a call on the command panics ([GetProxies], a setter or [Run]),
    the terminal had been released and is left so: [RestoreTerminal] is not
    called, nor is the callback, and no goroutine is started. *)
Theorem exec_command_panic_leaves_terminal_released :
  forall (p : Program) (c : C) (fn : option ExecCallback)
         (s : @State World Msg) (o : outcome C) (s' : State) (evs : list Event)
         (e : Event),
    exec p c fn s = (o, s', evs) ->
    In e evs -> is_command_call e = true -> ev_returned e = false ->
    In (EvReleaseTerminal (Ret None)) evs
    /\ filter is_restore evs = []
    /\ callback_args evs = []
    /\ goroutines s' = goroutines s
    /\ returned o = false.
Proof.
  intros p c fn s o s' evs e H Hin Hcall Hret.
  exec_paths H.
  all: event_cases; try discriminate Hcall; try discriminate Hret.
  all: repeat split; auto.
Qed.

(** ** The hand-off, call by call *)



Section HandOff.

(** A command whose release, [GetProxies] and setters all return. *)
Variables (p : @Program World Msg) (c : C) (s : @State World Msg).
Variables (w1 w2 w3 w4 w5 : World) (c1 c2 c3 c4 : C).
Variables (stdin_emb stdin_from : option (@io_Reader World)).
Variables (stdout_emb stdout_from stderr_emb stderr_from : option (@io_Writer World)).
Variables (stdin_handler stdout_handler stderr_handler : option (@HandlerFunc World)).

Hypothesis Hrelease : ReleaseTerminal p (world s) = (Ret None, w1).
Hypothesis HGetProxies :
  GetProxies c w1
  = (Ret (Build_ReaderProxy stdin_emb stdin_from stdin_handler,
          Build_WriterProxy stdout_emb stdout_from stdout_handler,
          Build_WriterProxy stderr_emb stderr_from stderr_handler, c1), w2).
Hypothesis HSetStdin :
  SetStdin c1 (Some (ProxyReader (Build_ReaderProxy stdin_emb (input p) stdin_handler))) w2
  = (Ret (tt, c2), w3).
Hypothesis HSetStdout :
  SetStdout c2 (Some (ProxyWriter (Build_WriterProxy stdout_emb (output p) stdout_handler))) w3
  = (Ret (tt, c3), w4).
Hypothesis HSetStderr :
  SetStderr c3 (Some (ProxyWriter (Build_WriterProxy stderr_emb (output p) stderr_handler))) w4
  = (Ret (tt, c4), w5).

(** Run [exec] up to its call of [Run]. *)
Ltac wire :=
  unfold exec, bind, call, go, ret; cbn;
  rewrite Hrelease; cbn; rewrite HGetProxies; cbn;
  rewrite HSetStdin; cbn; rewrite HSetStdout; cbn; rewrite HSetStderr; cbn.

(** C8. After a release that succeeded, [exec] fetches the proxies with
    [GetProxies], sets the [From] of the reader proxy to the program's input
    and the [From] of both writer proxies to the program's one output, and
    hands the three to [SetStdin], [SetStdout] and [SetStderr], each called
    on the command the call before left.  [Run] is called next, on the
    command the setters left and in the world they left: its outcome is the
    event that follows, nothing is called on the command afterwards, a
    panic of [Run] is the outcome of [exec], and a command [exec] hands back
    is the one [Run] left. *)
Theorem exec_wires_streams_before_Run :
  forall (fn : option ExecCallback) (ro : outcome (error * C)) (w6 : World),
    Run c4 w5 = (ro, w6) ->
    exists o s' rest,
      exec p c fn s
      = (o, s',
         [ EvReleaseTerminal (Ret None);
           EvGetProxies (Ret (Build_ReaderProxy stdin_emb stdin_from stdin_handler,
                              Build_WriterProxy stdout_emb stdout_from stdout_handler,
                              Build_WriterProxy stderr_emb stderr_from stderr_handler));
           EvSetStdin (ProxyReader (Build_ReaderProxy stdin_emb (input p) stdin_handler))
                      (Ret tt);
           EvSetStdout (ProxyWriter (Build_WriterProxy stdout_emb (output p) stdout_handler))
                       (Ret tt);
           EvSetStderr (ProxyWriter (Build_WriterProxy stderr_emb (output p) stderr_handler))
                       (Ret tt);
           EvRun (outcome_map fst ro) ] ++ rest)
      /\ filter is_command_call rest = []
      /\ (forall msg, ro = Panic msg ->
          o = Panic msg /\ s' = mkState w6 (goroutines s) /\ rest = [])
      /\ (forall r c5 c', ro = Ret (r, c5) -> o = Ret c' -> c' = c5).
Proof.
  intros fn ro w6 HRun. wire. rewrite HRun.
  destruct ro as [[[R |] c5] | msg]; cbn.
  - destruct (RestoreTerminal p w6) as [[re | msg] w7]; cbn.
    + destruct fn as [f |]; cbn.
      * destruct (f (Some R) w7) as [[m | msg] w8]; cbn;
          do 3 eexists; (split; [reflexivity |]); repeat split;
          intros; congruence.
      * do 3 eexists; (split; [reflexivity |]); repeat split; intros; congruence.
    + do 3 eexists; (split; [reflexivity |]); repeat split; intros; congruence.
  - destruct (RestoreTerminal p w6) as [[re | msg] w7]; cbn.
    + destruct fn as [f |]; cbn.
      * destruct (f re w7) as [[m | msg] w8]; cbn;
          do 3 eexists; (split; [reflexivity |]); repeat split;
          intros; congruence.
      * do 3 eexists; (split; [reflexivity |]); repeat split; intros; congruence.
    + do 3 eexists; (split; [reflexivity |]); repeat split; intros; congruence.
  - do 3 eexists; (split; [reflexivity |]); repeat split; intros; congruence.
Qed.

(** C1. After a release that succeeded, when [Run] returns [r] and
    [RestoreTerminal], called in the world [Run] left, returns [re]:
    [RestoreTerminal] is called exactly once on every such execution, and
    the callback, when there is one, is called once, in the world the
    restore left, with the failure of [Run] when [r] is one, whatever [re]
    is, and with [re] when [Run] returned no failure.  Without a callback
    [exec] then returns; with a callback that returns a message it starts
    the goroutine that sends the message, and returns. *)
Theorem exec_restores_once_and_reports :
  forall (r : error) (c5 : C) (w6 : World) (re : error) (w7 : World),
    Run c4 w5 = (Ret (r, c5), w6) ->
    RestoreTerminal p w6 = (Ret re, w7) ->
    (forall fn o s' evs,
        exec p c fn s = (o, s', evs) ->
        filter is_restore evs = [EvRestoreTerminal (Ret re)]
        /\ (forall f, fn = Some f ->
            callback_args evs = [match r with Some E => Some E | None => re end]))
    /\ (exists evs,
        exec p c None s = (Ret c5, mkState w7 (goroutines s), evs)
        /\ callback_args evs = [])
    /\ (forall (f : ExecCallback) (m : Msg) (w8 : World),
        f (match r with Some E => Some E | None => re end) w7 = (Ret m, w8) ->
        exists pre,
          exec p c (Some f) s
          = (Ret c5,
             mkState w8 (goroutines s ++ [GoSend (Send p) m]),
             pre ++ [ EvRun (Ret r);
                      EvRestoreTerminal (Ret re);
                      EvCallback (match r with Some E => Some E | None => re end) (Ret m);
                      EvGo (GoSend (Send p) m) ])
          /\ filter is_restore pre = [] /\ callback_args pre = []).
Proof.
  intros r c5 w6 re w7 HRun HRestore.
  split; [| split].
  - intros fn o s' evs. wire. rewrite HRun. cbn.
    destruct r as [E |]; cbn; rewrite HRestore; cbn.
    all: destruct fn as [f |]; cbn.
    all: try match goal with
             | g : ExecCallback |- context [?g' ?a ?w] =>
                 constr_eq g g'; destruct (g a w) as [[m | msg] w8]; cbn
             end.
    all: intros H; inversion H; subst; cbn; split; [reflexivity |].
    all: intros g Hg; first [discriminate Hg | reflexivity].
  - wire. rewrite HRun. cbn.
    destruct r as [E |]; cbn; rewrite HRestore; cbn;
      eexists; split; reflexivity.
  - intros f m w8 Hf. wire. rewrite HRun. cbn.
    destruct r as [E |]; cbn; rewrite HRestore; cbn; rewrite Hf; cbn.
    all: eexists (_ :: _ :: _ :: _ :: _ :: nil); repeat split.
Qed.

End HandOff.

End ControllerProperties.

Section OsExecCommandProperties.

Context {World : Type}.

(** C7. On an OS-process command whose [*exec.Cmd] is not nil, each of
    [SetStdin], [SetStdout] and [SetStderr] returns and leaves the world as
    it is.  When the stream it is about is already set, the command is left
    exactly as it is.  When that stream is nil, the command it leaves holds
    the stream given in that field, and has every other field, the other
    two streams, the path, the arguments and the three proxies, as
    before. *)
Theorem OsExecCommand_setters_fill_only_unset :
  forall (c : OsExecCommand) (cmd : exec_Cmd) (w : World),
    Cmd c = Some cmd ->
    (forall (r : option io_Reader) (x : io_Reader),
        Stdin cmd = Some x -> OsExecCommand_SetStdin c r w = (Ret (tt, c), w))
    /\ (forall (wr : option io_Writer) (x : io_Writer),
        Stdout cmd = Some x -> OsExecCommand_SetStdout c wr w = (Ret (tt, c), w))
    /\ (forall (wr : option io_Writer) (x : io_Writer),
        Stderr cmd = Some x -> OsExecCommand_SetStderr c wr w = (Ret (tt, c), w))
    /\ (forall (r : option io_Reader),
        Stdin cmd = None ->
        exists c' cmd',
          OsExecCommand_SetStdin c r w = (Ret (tt, c'), w)
          /\ Cmd c' = Some cmd'
          /\ Stdin cmd' = r
          /\ Stdout cmd' = Stdout cmd /\ Stderr cmd' = Stderr cmd
          /\ Path cmd' = Path cmd /\ Args cmd' = Args cmd
          /\ StdinProxy c' = StdinProxy c
          /\ StdoutProxy c' = StdoutProxy c
          /\ StderrProxy c' = StderrProxy c)
    /\ (forall (wr : option io_Writer),
        Stdout cmd = None ->
        exists c' cmd',
          OsExecCommand_SetStdout c wr w = (Ret (tt, c'), w)
          /\ Cmd c' = Some cmd'
          /\ Stdout cmd' = wr
          /\ Stdin cmd' = Stdin cmd /\ Stderr cmd' = Stderr cmd
          /\ Path cmd' = Path cmd /\ Args cmd' = Args cmd
          /\ StdinProxy c' = StdinProxy c
          /\ StdoutProxy c' = StdoutProxy c
          /\ StderrProxy c' = StderrProxy c)
    /\ (forall (wr : option io_Writer),
        Stderr cmd = None ->
        exists c' cmd',
          OsExecCommand_SetStderr c wr w = (Ret (tt, c'), w)
          /\ Cmd c' = Some cmd'
          /\ Stderr cmd' = wr
          /\ Stdin cmd' = Stdin cmd /\ Stdout cmd' = Stdout cmd
          /\ Path cmd' = Path cmd /\ Args cmd' = Args cmd
          /\ StdinProxy c' = StdinProxy c
          /\ StdoutProxy c' = StdoutProxy c
          /\ StderrProxy c' = StderrProxy c).
Proof.
  intros c cmd w Hcmd.
  unfold OsExecCommand_SetStdin, OsExecCommand_SetStdout, OsExecCommand_SetStderr.
  rewrite Hcmd.
  repeat split; intros; try (rewrite H; reflexivity).
  all: rewrite H; do 2 eexists; repeat split.
Qed.

End OsExecCommandProperties.

(** * Proxies stacked on proxies *)

Section ProxyChains.

Context {World Msg : Type}.

(** One more observer after the others. *)
Lemma observe_all_snoc (hs : list HandlerFunc) (h : HandlerFunc) (n : Z) (err : error) :
  forall (b : bytes) (w : World),
    observe_all (Msg := Msg) (hs ++ [h]) n err b w
    = match observe_all hs n err b w with
      | (Ret b1, w1, evs) =>
          match h b1 n err w1 with
          | (o, w2) => (o, w2, evs ++ [EvHandler b1 n err o])
          end
      | (Panic msg, w1, evs) => (Panic msg, w1, evs)
      end.
Proof.
  induction hs as [| h0 hs IH]; intros b w; cbn.
  - destruct (h b n err w) as [[b1 | msg] w1]; reflexivity.
  - destruct (h0 b n err w) as [[b1 | msg] w1]; [| reflexivity].
    rewrite IH.
    destruct (observe_all hs n err b1 w1) as [[[b2 | msg] w2] evs]; [| reflexivity].
    destruct (h b2 n err w2) as [o w3]. reflexivity.
Qed.

(** A reader stacked on a stream does what [read_then_observe] does, by
    induction on the reader and the proxies it is made of. *)
Lemma io_Read_chain (r : io_Reader) :
  forall name read hs (b : bytes) (s : @State World Msg),
    Reader_chain r = Some (name, read, hs) ->
    io_Read r b s = read_then_observe name read hs b s
with ReaderProxy_Read_chain (p : ReaderProxy) :
  forall name read hs (b : bytes) (s : @State World Msg),
    ReaderProxy_chain p = Some (name, read, hs) ->
    ReaderProxy_Read p b s = read_then_observe name read hs b s.
Proof.
  - destruct r as [name0 read0 | p]; intros name read hs b s H; cbn in H.
    + inversion H; subst. cbn. unfold call, read_then_observe.
      destruct (read b (world s)) as [[[[b1 n] err] | msg] w1]; reflexivity.
    + cbn [io_Read]. exact (ReaderProxy_Read_chain p name read hs b s H).
  - destruct p as [emb [src |] [h |]]; intros name read hs b s H; cbn in H;
      try discriminate H.
    destruct (Reader_chain src) as [[[name0 read0] hs0] |] eqn:Hsrc;
      [| discriminate H].
    inversion H; subst. cbn [ReaderProxy_Read].
    pose proof (io_Read_chain src name read hs0 b s Hsrc) as IH.
    unfold read_then_observe in *.
    destruct (read b (world s)) as [[[[b1 n] err] | msg] w1].
    + rewrite observe_all_snoc.
      destruct (observe_all hs0 n err b1 w1) as [[[b2 | msg] w2] evs].
      * erewrite bind_Ret by exact IH. unfold bind, call, ret. cbn.
        destruct (h b2 n err w2) as [[b3 | msg] w3]; cbn; rewrite ?app_nil_r;
          reflexivity.
      * erewrite bind_Panic by exact IH. reflexivity.
    + erewrite bind_Panic by exact IH. reflexivity.
Qed.

(** A writer stacked on a stream does what [observe_then_write] does. *)
Lemma io_Write_chain (w : io_Writer) :
  forall hs name write (b : bytes) (s : @State World Msg),
    Writer_chain w = Some (hs, name, write) ->
    io_Write w b s = observe_then_write hs name write b s
with WriterProxy_Write_chain (p : WriterProxy) :
  forall hs name write (b : bytes) (s : @State World Msg),
    WriterProxy_chain p = Some (hs, name, write) ->
    WriterProxy_Write p b s = observe_then_write hs name write b s.
Proof.
  - destruct w as [name0 write0 | p]; intros hs name write b s H; cbn in H.
    + inversion H; subst. cbn. unfold call, observe_then_write. cbn.
      destruct (write b (world s)) as [o w1]. destruct o; reflexivity.
    + cbn [io_Write]. exact (WriterProxy_Write_chain p hs name write b s H).
  - destruct p as [emb [dst |] [h |]]; intros hs name write b s H; cbn in H;
      try discriminate H.
    destruct (Writer_chain dst) as [[[hs0 name0] write0] |] eqn:Hdst;
      [| discriminate H].
    inversion H; subst. cbn [WriterProxy_Write].
    unfold observe_then_write. cbn [observe_all].
    unfold bind at 1. unfold call.
    destruct (h b 0%Z None (world s)) as [[b1 | msg] w1]; cbn [outcome_map];
      [| reflexivity].
    pose proof (io_Write_chain dst hs0 name write b1 (mkState w1 (goroutines s)) Hdst)
      as IH.
    unfold observe_then_write in IH. cbn [world goroutines] in IH.
    destruct (observe_all hs0 0%Z None b1 w1) as [[[b2 | msg] w2] evs].
    + destruct (write b2 w2) as [[[[b3 n] err] | msg] w3].
      * erewrite bind_Ret by exact IH. unfold ret. cbn. rewrite app_nil_r. reflexivity.
      * erewrite bind_Panic by exact IH. reflexivity.
    + erewrite bind_Panic by exact IH. reflexivity.
Qed.

(** However many proxies are stacked on a source, none of them with a nil
    [Handler]: a [Read] reads the source once, first and with the caller's
    buffer; if that returns, it calls every observer once, the one nearest
    the source first, each with the count and the error of the source and
    with the buffer the one before left, and stops at the first that
    panics; the count and the error it returns are those of the source, the
    buffer is the one the last observer left. *)
Theorem io_Read_reads_source_once :
  forall (r : io_Reader) (name : string)
         (read : bytes -> ext (bytes * Z * error)) (hs : list HandlerFunc)
         (b : bytes) (s : @State World Msg),
    Reader_chain r = Some (name, read, hs) ->
    io_Read r b s = read_then_observe name read hs b s.
Proof. intros r name read hs b s H. exact (io_Read_chain r b s H). Qed.

(** However many proxies are stacked on a sink, none of them with a nil
    [Handler]: a [Write] calls every observer once, the outermost first,
    each with count 0 and a nil error and with the buffer the one before
    left, and stops at the first that panics; if all return it writes the
    sink once, as the last step and with the buffer the observers left, and
    yields what the sink yields. *)
Theorem io_Write_writes_sink_once_last :
  forall (w : io_Writer) (hs : list HandlerFunc) (name : string)
         (write : bytes -> ext (bytes * Z * error))
         (b : bytes) (s : @State World Msg),
    Writer_chain w = Some (hs, name, write) ->
    io_Write w b s = observe_then_write hs name write b s.
Proof. intros w hs name write b s H. exact (io_Write_chain w b s H). Qed.

(** Reading through proxies that end at a nil [From] does nothing. *)
Lemma io_Read_unbound (r : io_Reader) :
  forall (b : bytes) (s : @State World Msg),
    Reader_bound r = false ->
    io_Read r b s = (Panic nil_dereference, s, [])
with ReaderProxy_Read_unbound (p : ReaderProxy) :
  forall (b : bytes) (s : @State World Msg),
    ReaderProxy_bound p = false ->
    ReaderProxy_Read p b s = (Panic nil_dereference, s, []).
Proof.
  - destruct r as [name read | p]; intros b s H; cbn in H.
    + discriminate H.
    + cbn [io_Read]. exact (ReaderProxy_Read_unbound p b s H).
  - destruct p as [emb [src |] h]; intros b s H; cbn in H; cbn [ReaderProxy_Read].
    + erewrite bind_Panic by exact (io_Read_unbound src b s H). reflexivity.
    + reflexivity.
Qed.

(** Writing through proxies that end at a nil [From] does not return. *)
Lemma io_Write_unbound (w : io_Writer) :
  forall (b : bytes) (s : @State World Msg),
    Writer_bound w = false ->
    returned (fst (fst (io_Write w b s))) = false
with WriterProxy_Write_unbound (p : WriterProxy) :
  forall (b : bytes) (s : @State World Msg),
    WriterProxy_bound p = false ->
    returned (fst (fst (WriterProxy_Write p b s))) = false.
Proof.
  - destruct w as [name write | p]; intros b s H; cbn in H.
    + discriminate H.
    + cbn [io_Write]. exact (WriterProxy_Write_unbound p b s H).
  - destruct p as [emb from [O |]]; intros b s H; cbn in H; cbn [WriterProxy_Write];
      [| reflexivity].
    unfold bind at 1. unfold call.
    destruct (O b 0%Z None (world s)) as [[b1 | msg] w1]; cbn [outcome_map];
      [| reflexivity].
    destruct from as [dst |]; [| reflexivity].
    pose proof (io_Write_unbound dst b1 (mkState w1 (goroutines s)) H) as IH.
    destruct (io_Write dst b1 (mkState w1 (goroutines s)))
      as [[[[[b2 n2] err2] | msg] s2] evs2] eqn:Hdst.
    + discriminate IH.
    + erewrite bind_Panic by exact Hdst. reflexivity.
Qed.

(** Proxies that are not bound to a stream, as [GetProxies] hands them out,
    alone or stacked.  A [Read] panics before anything happens: the state
    is untouched and no observer is called.  A [Write] does not return
    either, but the observer of the outermost proxy, when it returns, has
    been called by then. *)
Theorem unbound_proxies_fault :
  (forall (r : io_Reader) (b : bytes) (s : @State World Msg),
      Reader_bound r = false ->
      io_Read r b s = (Panic nil_dereference, s, []))
  /\ (forall (emb from : option io_Writer) (O : HandlerFunc) (b : bytes)
             (s : @State World Msg) (b1 : bytes) (w1 : World),
      WriterProxy_bound (Build_WriterProxy emb from (Some O)) = false ->
      O b 0%Z None (world s) = (Ret b1, w1) ->
      exists o s' rest,
        WriterProxy_Write (Build_WriterProxy emb from (Some O)) b s
        = (o, s', EvHandler b 0%Z None (Ret b1) :: rest)
        /\ returned o = false
        /\ (from = None -> o = Panic nil_dereference /\ rest = []
                           /\ s' = mkState w1 (goroutines s))).
Proof.
  split.
  - intros r b s H. exact (io_Read_unbound r b s H).
  - intros emb from O b s b1 w1 Hunbound HO.
    pose proof (WriterProxy_Write_unbound (Build_WriterProxy emb from (Some O)) b s Hunbound)
      as Hfault.
    cbn [WriterProxy_Write] in *. unfold bind at 1 in Hfault. unfold bind at 1.
    unfold call in *. rewrite HO in *. cbn [outcome_map] in *.
    destruct from as [dst |].
    + destruct (bind _ _ _) as [[o s'] rest]. cbn in Hfault.
      exists o, s', rest. repeat split; try assumption; discriminate.
    + cbn. do 3 eexists. repeat split.
Qed.

End ProxyChains.

(** * OS-process commands from request to hand-off *)

Section ProcessProperties.

Context {World Msg : Type}.

(** Two calls of the same setter in a row leave, in its field, the first
    stream that is not nil among the one the command had, the one given
    first and the one given second; so a stream that is set stays, and a
    call with a nil stream changes nothing. *)
Theorem OsExecCommand_setters_first_stream_wins :
  forall (c : @OsExecCommand World) (cmd : exec_Cmd) (w : World),
    Cmd c = Some cmd ->
    (forall (r1 r2 : option io_Reader),
        exists c1 c2 cmd2,
          OsExecCommand_SetStdin c r1 w = (Ret (tt, c1), w)
          /\ OsExecCommand_SetStdin c1 r2 w = (Ret (tt, c2), w)
          /\ Cmd c2 = Some cmd2
          /\ Stdin cmd2
             = match Stdin cmd, r1 with
               | Some x, _ => Some x
               | None, Some x => Some x
               | None, None => r2
               end
          /\ (r1 <> None -> c2 = c1))
    /\ (forall (wr1 wr2 : option io_Writer),
        exists c1 c2 cmd2,
          OsExecCommand_SetStdout c wr1 w = (Ret (tt, c1), w)
          /\ OsExecCommand_SetStdout c1 wr2 w = (Ret (tt, c2), w)
          /\ Cmd c2 = Some cmd2
          /\ Stdout cmd2
             = match Stdout cmd, wr1 with
               | Some x, _ => Some x
               | None, Some x => Some x
               | None, None => wr2
               end
          /\ (wr1 <> None -> c2 = c1))
    /\ (forall (wr1 wr2 : option io_Writer),
        exists c1 c2 cmd2,
          OsExecCommand_SetStderr c wr1 w = (Ret (tt, c1), w)
          /\ OsExecCommand_SetStderr c1 wr2 w = (Ret (tt, c2), w)
          /\ Cmd c2 = Some cmd2
          /\ Stderr cmd2
             = match Stderr cmd, wr1 with
               | Some x, _ => Some x
               | None, Some x => Some x
               | None, None => wr2
               end
          /\ (wr1 <> None -> c2 = c1)).
Proof.
  intros c cmd w Hcmd.
  unfold OsExecCommand_SetStdin, OsExecCommand_SetStdout, OsExecCommand_SetStderr.
  destruct c as [oc pin pout perr]. cbn in Hcmd. subst oc.
  destruct cmd as [path args [i |] [o |] [e |]].
  all: repeat split; intros [x1 |] x2; cbn.
  all: do 3 eexists; repeat split; intros; congruence.
Qed.

(** The three setters do not interfere: called on a command in any of the
    six orders they leave the same command, and none of them touches the
    world or the proxies the command holds. *)
Theorem OsExecCommand_setters_commute :
  forall (c c1 c2 c3 : @OsExecCommand World)
         (r : option io_Reader) (wo we : option io_Writer)
         (w w1 w2 w3 : World),
    OsExecCommand_SetStdin c r w = (Ret (tt, c1), w1) ->
    OsExecCommand_SetStdout c1 wo w1 = (Ret (tt, c2), w2) ->
    OsExecCommand_SetStderr c2 we w2 = (Ret (tt, c3), w3) ->
    w3 = w
    /\ (StdinProxy c3, StdoutProxy c3, StderrProxy c3)
       = (StdinProxy c, StdoutProxy c, StderrProxy c)
    /\ (exists a b, OsExecCommand_SetStdin c r w = (Ret (tt, a), w)
                    /\ OsExecCommand_SetStderr a we w = (Ret (tt, b), w)
                    /\ OsExecCommand_SetStdout b wo w = (Ret (tt, c3), w))
    /\ (exists a b, OsExecCommand_SetStdout c wo w = (Ret (tt, a), w)
                    /\ OsExecCommand_SetStdin a r w = (Ret (tt, b), w)
                    /\ OsExecCommand_SetStderr b we w = (Ret (tt, c3), w))
    /\ (exists a b, OsExecCommand_SetStdout c wo w = (Ret (tt, a), w)
                    /\ OsExecCommand_SetStderr a we w = (Ret (tt, b), w)
                    /\ OsExecCommand_SetStdin b r w = (Ret (tt, c3), w))
    /\ (exists a b, OsExecCommand_SetStderr c we w = (Ret (tt, a), w)
                    /\ OsExecCommand_SetStdin a r w = (Ret (tt, b), w)
                    /\ OsExecCommand_SetStdout b wo w = (Ret (tt, c3), w))
    /\ (exists a b, OsExecCommand_SetStderr c we w = (Ret (tt, a), w)
                    /\ OsExecCommand_SetStdout a wo w = (Ret (tt, b), w)
                    /\ OsExecCommand_SetStdin b r w = (Ret (tt, c3), w)).
Proof.
  intros c c1 c2 c3 r wo we w w1 w2 w3.
  unfold OsExecCommand_SetStdin, OsExecCommand_SetStdout, OsExecCommand_SetStderr.
  destruct c as [[[path args [i |] [o |] [e |]] |] pin pout perr]; cbn;
    intros H1 H2 H3; try discriminate H1;
    inversion H1; subst; cbn in H2; inversion H2; subst; cbn in H3;
    inversion H3; subst.
  all: split; [reflexivity |]; split; [reflexivity |].
  all: repeat split; do 2 eexists; repeat split; cbn; reflexivity.
Qed.

Variable os_Run : @exec_Cmd World -> @ext World (error * @exec_Cmd World).

(** A request made by [ExecProcess] for a process, handed to [exec], on a
    platform whose [Run] leaves the three streams of the process as they
    are.  When [exec] returns, each stream the caller had set is still the
    caller's, and each one it had left unset goes through the proxy given to
    [ExecProcess], bound to the program's input for stdin and to the
    program's output for stdout and for stderr.  The proxies the command
    holds are the ones given, still unbound. *)
Theorem exec_of_ExecProcess_routes_unset_streams :
  forall (p : @Program World Msg) (cmd : exec_Cmd)
         (stdinProxy : ReaderProxy) (stdoutProxy stderrProxy : WriterProxy)
         (fn : option ExecCallback)
         (s s' : @State World Msg) (c' : OsExecCommand) (evs : list Event),
    (forall cmd0 w err cmd1 w1,
        os_Run cmd0 w = (Ret (err, cmd1), w1) ->
        Stdin cmd1 = Stdin cmd0 /\ Stdout cmd1 = Stdout cmd0 /\ Stderr cmd1 = Stderr cmd0) ->
    exec (command := OsExecCommand_ExecCommand os_Run) p
         (execMsg_cmd (ExecProcess (Some cmd) stdinProxy stdoutProxy stderrProxy fn tt))
         (execMsg_fn (ExecProcess (Some cmd) stdinProxy stdoutProxy stderrProxy fn tt))
         s
    = (Ret c', s', evs) ->
    In (EvReleaseTerminal (Ret None)) evs ->
    exists cmd',
      Cmd c' = Some cmd'
      /\ Stdin cmd'
         = Some match Stdin cmd with
                | Some x => x
                | None => ProxyReader (ReaderProxy_set_From stdinProxy (input p))
                end
      /\ Stdout cmd'
         = Some match Stdout cmd with
                | Some x => x
                | None => ProxyWriter (WriterProxy_set_From stdoutProxy (output p))
                end
      /\ Stderr cmd'
         = Some match Stderr cmd with
                | Some x => x
                | None => ProxyWriter (WriterProxy_set_From stderrProxy (output p))
                end
      /\ StdinProxy c' = stdinProxy
      /\ StdoutProxy c' = stdoutProxy
      /\ StderrProxy c' = stderrProxy.
Proof.
  intros p cmd pin pout perr fn s s' c' evs Hrun H Hrel.
  unfold ExecProcess, Exec, wrapExecCommand in H. cbn [execMsg_cmd execMsg_fn] in H.
  destruct cmd as [path args i o e].
  unfold exec, bind, call, go, ret in H; cbn in H.
  destruct (ReleaseTerminal p (world s)) as [[[R |] | msg] w1]; cbn in H.
  - exfalso. destruct fn as [f |]; cbn in H.
    + destruct (f (Some R) w1) as [[m | msg] w2]; cbn in H; inversion H; subst;
        cbn in Hrel; intuition discriminate.
    + inversion H; subst. cbn in Hrel; intuition discriminate.
  - destruct i as [i |], o as [o |], e as [e |]; cbn in H.
    all: unfold OsExecCommand_Run in H; cbn in H.
    all: match type of H with
         | context [os_Run ?c ?w] =>
             destruct (os_Run c w) as [[[err cmd1] | msg] w2] eqn:E; cbn in H
         end.
    all: try discriminate H.
    all: destruct (Hrun _ _ _ _ _ E) as [Hi [Ho He]]; cbn in Hi, Ho, He.
    all: destruct err as [err |]; cbn in H.
    all: destruct (RestoreTerminal p w2) as [[re | msg] w3]; cbn in H;
           try discriminate H.
    all: destruct fn as [f |]; cbn in H.
    all: try match goal with
             | g : ExecCallback |- _ =>
                 match type of H with
                 | context [g ?a ?w] => destruct (g a w) as [[m | msg] w4]; cbn in H
                 end
             end.
    all: try discriminate H.
    all: inversion H; subst; cbn.
    all: exists cmd1; repeat split; assumption.
  - discriminate H.
Qed.

(** A request for a process whose [*exec.Cmd] is nil.  Once the terminal is
    released, [exec] fetches the proxies and panics in [SetStdin]: [Run] and
    [RestoreTerminal] are not called, the callback hears nothing, and the
    program is left with the terminal released. *)
Theorem exec_of_ExecProcess_nil_Cmd_panics :
  forall (p : @Program World Msg)
         (stdinProxy : ReaderProxy) (stdoutProxy stderrProxy : WriterProxy)
         (fn : option ExecCallback) (s : @State World Msg) (w1 : World),
    ReleaseTerminal p (world s) = (Ret None, w1) ->
    exec (command := OsExecCommand_ExecCommand os_Run) p
         (execMsg_cmd (ExecProcess None stdinProxy stdoutProxy stderrProxy fn tt))
         (execMsg_fn (ExecProcess None stdinProxy stdoutProxy stderrProxy fn tt))
         s
    = (Panic nil_dereference,
       mkState w1 (goroutines s),
       [ EvReleaseTerminal (Ret None);
         EvGetProxies (Ret (stdinProxy, stdoutProxy, stderrProxy));
         EvSetStdin (ProxyReader (ReaderProxy_set_From stdinProxy (input p)))
                    (Panic nil_dereference) ]).
Proof.
  intros p pin pout perr fn s w1 Hrel.
  unfold ExecProcess, Exec, wrapExecCommand. cbn [execMsg_cmd execMsg_fn].
  unfold exec, bind, call. rewrite Hrel. reflexivity.
Qed.

End ProcessProperties.

(** * The properties on the concrete host *)

Section OnDemo.

Import Demo.

Local Open Scope string_scope.

(** C3 on a source that fills the buffer with "abc". *)
Lemma ReaderProxy_Read_transparent_witness :
  io_Read (Msg := Msg) stdin zeros s0
  = (Ret (abc, 3%Z, None), mkState ["read"] [], [EvRead "stdin" zeros (Ret (abc, 3%Z, None))])
  /\ observer abc 3%Z None ["read"] = (Ret abc, ["read"; "observe"])
  /\ ReaderProxy_Read (Build_ReaderProxy None (Some stdin) (Some observer)) zeros s0
     = (Ret (abc, 3%Z, None),
        mkState ["read"; "observe"] [],
        [EvRead "stdin" zeros (Ret (abc, 3%Z, None));
         EvHandler abc 3%Z None (Ret abc)]).
Proof.
  split; [reflexivity |]. split; [reflexivity |].
  apply (proj1 (@ReaderProxy_Read_transparent World Msg None stdin observer zeros s0
                  abc 3%Z None (mkState ["read"] [])
                  [EvRead "stdin" zeros (Ret (abc, 3%Z, None))]
                  (Ret abc) ["read"; "observe"] eq_refl eq_refl)).
Defined.

(** An observer that overwrites the shared buffer changes what the caller
    finds in it; the count and the error stay those of the source. *)
Example ReaderProxy_Read_scrubbed :
  fst (fst (ReaderProxy_Read (Msg := Msg)
              (Build_ReaderProxy None (Some stdin) (Some scrubber)) zeros s0))
  = Ret (zeros, 3%Z, None).
Proof. reflexivity. Qed.

(** C4 on a sink that takes two of the three bytes. *)
Lemma WriterProxy_Write_observer_first_witness :
  observer abc 0%Z None [] = (Ret abc, ["observe"])
  /\ io_Write (Msg := Msg) stdout abc (mkState ["observe"] [])
     = (Ret (abc, 2%Z, short_write), mkState ["observe"; "write"] [],
        [EvWrite "stdout" abc (Ret (abc, 2%Z, short_write))])
  /\ WriterProxy_Write (Build_WriterProxy None (Some stdout) (Some observer)) abc s0
     = (Ret (abc, 2%Z, short_write), mkState ["observe"; "write"] [],
        [EvHandler abc 0%Z None (Ret abc);
         EvWrite "stdout" abc (Ret (abc, 2%Z, short_write))]).
Proof.
  split; [reflexivity |]. split; [reflexivity |].
  apply (@WriterProxy_Write_observer_first World Msg None stdout observer abc s0
           abc ["observe"] (Ret (abc, 2%Z, short_write))
           (mkState ["observe"; "write"] [])
           [EvWrite "stdout" abc (Ret (abc, 2%Z, short_write))] eq_refl eq_refl).
Defined.

(** A write on which the sink takes 2 bytes and reports a short write: the
    observer was called with 0 and nil. *)
Theorem WriterProxy_Write_observer_misses_result :
  WriterProxy_Write (Msg := Msg)
    (Build_WriterProxy None (Some stdout) (Some observer)) abc s0
  = (Ret (abc, 2%Z, Some (errors_New "short write")),
     mkState ["observe"; "write"] [],
     [EvHandler abc 0%Z None (Ret abc);
      EvWrite "stdout" abc (Ret (abc, 2%Z, Some (errors_New "short write")))]).
Proof. reflexivity. Qed.

(** C5, the counterexample.  The write transfers 2 bytes and reports a
    short write; the observer was called once, with 0 and nil, and never
    with the count and the error of the write. *)
Lemma WriterProxy_Write_observer_not_given_result :
  fst (fst (WriterProxy_Write (Msg := Msg)
              (Build_WriterProxy None (Some stdout) (Some observer)) abc s0))
  = Ret (abc, 2%Z, short_write)
  /\ ~ (exists b0 r,
           In (EvHandler b0 2%Z short_write r)
              (snd (WriterProxy_Write (Msg := Msg)
                      (Build_WriterProxy None (Some stdout) (Some observer)) abc s0))).
Proof.
  split; [reflexivity |].
  intros [b0 [r H]]. vm_compute in H.
  destruct H as [H | [H | []]]; discriminate H.
Qed.

(** C5, as the code has it, on the same write and on a read. *)
Lemma proxy_observer_arguments_witness :
  observer abc 0%Z None [] = (Ret abc, ["observe"])
  /\ (exists o s' rest,
         WriterProxy_Write (Msg := Msg)
           (Build_WriterProxy None (Some stdout) (Some observer)) abc s0
         = (o, s', EvHandler abc 0%Z None (Ret abc) :: rest)
         /\ io_Write stdout abc (mkState ["observe"] []) = (o, s', rest))
  /\ snd (ReaderProxy_Read (Msg := Msg)
            (Build_ReaderProxy None (Some stdin) (Some observer)) zeros s0)
     = [EvRead "stdin" zeros (Ret (abc, 3%Z, None)); EvHandler abc 3%Z None (Ret abc)].
Proof.
  split; [reflexivity |]. split.
  - exact (proj2 (@proxy_observer_arguments World Msg) None stdout observer abc s0
             (Ret abc) ["observe"] eq_refl).
  - exact (proj1 (proj1 (@proxy_observer_arguments World Msg) None stdin observer zeros s0
                    abc 3%Z None (mkState ["read"] [])
                    [EvRead "stdin" zeros (Ret (abc, 3%Z, None))]
                    (Ret abc) ["read"; "observe"] eq_refl eq_refl)).
Defined.

(** C6, the counterexample.  With a nil [Handler] and a bound stream,
    neither [Read] nor [Write] returns. *)
Lemma nil_Handler_faults :
  ~ (exists r s' evs,
        ReaderProxy_Read (Msg := Msg) (Build_ReaderProxy None (Some stdin) None) zeros s0
        = (Ret r, s', evs))
  /\ ~ (exists r s' evs,
        WriterProxy_Write (Msg := Msg) (Build_WriterProxy None (Some stdout) None) abc s0
        = (Ret r, s', evs)).
Proof.
  split; intros [r [s' [evs H]]]; vm_compute in H; discriminate H.
Qed.

(** C7 on a command that has no stream set, and on one that kept its own
    input. *)
Lemma OsExecCommand_setters_fill_only_unset_witness :
  Cmd command = Some vim
  /\ Stdin vim = None
  /\ (exists c' cmd',
         OsExecCommand_SetStdin command (Some stdin) [] = (Ret (tt, c'), [])
         /\ Cmd c' = Some cmd'
         /\ Stdin cmd' = Some stdin
         /\ Stdout cmd' = None /\ Stderr cmd' = None)
  /\ OsExecCommand_SetStdin command_with_stdin (Some (ProxyReader reader_proxy)) []
     = (Ret (tt, command_with_stdin), []).
Proof.
  split; [reflexivity |]. split; [reflexivity |]. split.
  - destruct (proj1 (proj2 (proj2 (proj2
        (@OsExecCommand_setters_fill_only_unset World command vim [] eq_refl))))
        (Some stdin) eq_refl) as [c' [cmd' [Hset [Hc' [Hin [Hout [Herr _]]]]]]].
    exists c', cmd'. repeat split; assumption.
  - apply (proj1 (@OsExecCommand_setters_fill_only_unset World command_with_stdin
                    (mkCmd "vim" ["file.txt"] (Some stdin) None None) [] eq_refl)
             (Some (ProxyReader reader_proxy)) stdin eq_refl).
Defined.

(** C1 where the command fails and the restore fails too, and where the
    command succeeds and the restore fails: one restore each time; the
    callback hears of the command's failure in the first case and of the
    restore's in the second. *)
Lemma exec_restores_once_and_reports_witness :
  (filter is_restore (snd run_failed) = [EvRestoreTerminal (Ret (Some E_restore))]
   /\ callback_args (snd run_failed) = [Some E_run])
  /\ (filter is_restore (snd (run_exec None None (Some E_restore) (Some callback)))
      = [EvRestoreTerminal (Ret (Some E_restore))]
      /\ callback_args (snd (run_exec None None (Some E_restore) (Some callback)))
         = [Some E_restore]
      /\ goroutines (snd (fst (run_exec None None (Some E_restore) (Some callback))))
         = [GoSend (Send (program None (Some E_restore))) "restore failed"]).
Proof.
  split.
  - edestruct (@exec_restores_once_and_reports World Msg _
                 (OsExecCommand_ExecCommand (os_Run (Some E_run)))
                 (program None (Some E_restore)) command s0) as [Hall _].
    1-7: reflexivity.
    destruct (Hall (Some callback) _ _ _ eq_refl) as [Hres Hcb].
    split; [exact Hres | exact (Hcb callback eq_refl)].
  - edestruct (@exec_restores_once_and_reports World Msg _
                 (OsExecCommand_ExecCommand (os_Run None))
                 (program None (Some E_restore)) command s0) as [Hall [_ Hsome]].
    1-7: reflexivity.
    destruct (Hall (Some callback) _ _ _ eq_refl) as [Hres Hcb].
    split; [exact Hres |]. split; [exact (Hcb callback eq_refl) |].
    destruct (Hsome callback "restore failed" _ eq_refl) as [pre [Hexec _]].
    unfold run_exec. rewrite Hexec. reflexivity.
Defined.


(** C8 where everything succeeds: the events up to [Run], and the command
    [Run] was given. *)
Lemma exec_wires_streams_before_Run_witness :
  exists o s' rest,
    run_ok
    = (o, s',
       [ EvReleaseTerminal (Ret None);
         EvGetProxies (Ret (reader_proxy, writer_proxy, writer_proxy));
         EvSetStdin (ProxyReader (Build_ReaderProxy None (Some stdin) (Some observer))) (Ret tt);
         EvSetStdout (ProxyWriter (Build_WriterProxy None (Some stdout) (Some observer))) (Ret tt);
         EvSetStderr (ProxyWriter (Build_WriterProxy None (Some stdout) (Some observer))) (Ret tt);
         EvRun (Ret None) ] ++ rest)%list
    /\ (forall c', o = Ret c' ->
        Cmd c'
        = Some (mkCmd "vim" ["file.txt"]
                  (Some (ProxyReader (Build_ReaderProxy None (Some stdin) (Some observer))))
                  (Some (ProxyWriter (Build_WriterProxy None (Some stdout) (Some observer))))
                  (Some (ProxyWriter (Build_WriterProxy None (Some stdout) (Some observer)))))).
Proof.
  edestruct (@exec_wires_streams_before_Run World Msg _
               (OsExecCommand_ExecCommand (os_Run None))
               (program None None) command s0) as [o [s' [rest [Hexec [_ [_ Hcmd]]]]]].
  1-6: reflexivity.
  exists o, s', rest. split.
  - exact Hexec.
  - intros c' Ho. rewrite (Hcmd _ _ c' eq_refl Ho). reflexivity.
Defined.

(** C9 where the command fails and no callback was given. *)
Lemma exec_without_callback_is_silent_witness :
  callback_args (snd run_failed_unheard) = []
  /\ filter is_go (snd run_failed_unheard) = []
  /\ goroutines (snd (fst run_failed_unheard)) = []
  /\ returned (fst (fst run_failed_unheard)) = true.
Proof.
  destruct (@exec_without_callback_is_silent World Msg _
              (OsExecCommand_ExecCommand (os_Run (Some E_run)))
              (program None None) command s0
              (fst (fst run_failed_unheard)) (snd (fst run_failed_unheard))
              (snd run_failed_unheard) eq_refl) as [Hcb [Hgo [Hpool Hret]]].
  split; [exact Hcb |]. split; [exact Hgo |]. split; [exact Hpool |].
  destruct (Hret eq_refl) as [c' Hc']. rewrite Hc'. reflexivity.
Defined.


Example exec_installs_bound_proxies :
  option_map (fun c => Cmd c) (match fst (fst run_ok) with Ret c => Some c | Panic _ => None end)
  = Some (Some (mkCmd "vim" ["file.txt"]
                  (Some (ProxyReader (Build_ReaderProxy None (Some stdin) (Some observer))))
                  (Some (ProxyWriter (Build_WriterProxy None (Some stdout) (Some observer))))
                  (Some (ProxyWriter (Build_WriterProxy None (Some stdout) (Some observer))))))
  /\ option_map (fun c => option_map (fun cmd => Stdin cmd) (Cmd c))
       (match fst (fst (exec (command := OsExecCommand_ExecCommand (os_Run None))
                             (program None None) command_with_stdin (Some callback) s0))
        with Ret c => Some c | Panic _ => None end)
     = Some (Some (Some stdin)).
Proof. split; reflexivity. Qed.

End OnDemo.

Section OnDemoChain.

Import Demo DemoChain.

Local Open Scope string_scope.

(** The command fails, the restore fails: still one call of each kind. *)
Lemma exec_never_retries_witness :
  List.length (filter is_run (snd run_failed)) <= 1
  /\ List.length (filter is_restore (snd run_failed)) <= 1
  /\ List.length (callback_args (snd run_failed)) <= 1
  /\ exists started,
       goroutines (snd (fst run_failed)) = (goroutines s0 ++ started)%list
       /\ List.length started <= 1.
Proof.
  destruct (@exec_never_retries World Msg _
              (OsExecCommand_ExecCommand (os_Run (Some E_run)))
              (program None (Some E_restore)) command (Some callback) s0
              (fst (fst run_failed)) (snd (fst run_failed)) (snd run_failed)
              eq_refl) as [_ [Hrun [Hres [Hcb [started [Hpool [_ Hlen]]]]]]].
  split; [exact Hrun |]. split; [exact Hres |]. split; [exact Hcb |].
  exists started. split; [exact Hpool | exact Hlen].
Defined.

Lemma exec_restores_only_after_Run_witness :
  In (EvRestoreTerminal (Ret (Some E_restore))) (snd run_failed)
  /\ exists pre r post,
       snd run_failed
       = (pre ++ EvRun (Ret r) :: EvRestoreTerminal (Ret (Some E_restore)) :: post)%list
       /\ forallb ev_returned pre = true
       /\ filter is_command_call post = [].
Proof.
  assert (Hres : In (EvRestoreTerminal (Ret (Some E_restore))) (snd run_failed))
    by (do 6 right; left; reflexivity).
  split; [exact Hres |].
  exact (@exec_restores_only_after_Run World Msg _
           (OsExecCommand_ExecCommand (os_Run (Some E_run)))
           (program None (Some E_restore)) command (Some callback) s0
           (fst (fst run_failed)) (snd (fst run_failed)) (snd run_failed)
           (Ret (Some E_restore)) eq_refl Hres).
Defined.

Lemma exec_callback_follows_release_failure_or_restore_witness :
  In (EvCallback (Some E_run) (Ret "exit status 1")) (snd run_failed)
  /\ exists pre re post,
       snd run_failed
       = (pre ++ EvRestoreTerminal (Ret re)
              :: EvCallback (Some E_run) (Ret "exit status 1") :: post)%list
       /\ In (EvReleaseTerminal (Ret None)) pre.
Proof.
  assert (Hcb : In (EvCallback (Some E_run) (Ret "exit status 1")) (snd run_failed))
    by (do 7 right; left; reflexivity).
  split; [exact Hcb |].
  destruct (@exec_callback_follows_release_failure_or_restore World Msg _
              (OsExecCommand_ExecCommand (os_Run (Some E_run)))
              (program None (Some E_restore)) command (Some callback) s0
              (fst (fst run_failed)) (snd (fst run_failed)) (snd run_failed)
              (Some E_run) (Ret "exit status 1") eq_refl Hcb)
    as [[R [post [_ Habs]]] | Hheld].
  - vm_compute in Habs. discriminate Habs.
  - exact Hheld.
Defined.

(** Starting the process panics: the panic is the outcome of [exec] and the
    last event. *)
Lemma exec_panic_propagates_witness :
  returned (fst (fst (run_request os_Run_panics less_request))) = false
  /\ exists pre,
       snd (run_request os_Run_panics less_request)
       = (pre ++ [EvRun (Panic "fork/exec: resource temporarily unavailable")])%list
       /\ forallb ev_returned pre = true.
Proof.
  destruct (@exec_panic_propagates World Msg _
              (OsExecCommand_ExecCommand os_Run_panics)
              (program None None) (execMsg_cmd less_request) (execMsg_fn less_request) s0
              (fst (fst (run_request os_Run_panics less_request)))
              (snd (fst (run_request os_Run_panics less_request)))
              (snd (run_request os_Run_panics less_request))
              eq_refl) as [Hret Hlast].
  split; [rewrite Hret; reflexivity |].
  apply Hlast; [do 5 right; left; reflexivity | reflexivity].
Defined.

Lemma exec_command_panic_leaves_terminal_released_witness :
  In (EvReleaseTerminal (Ret None)) (snd (run_request os_Run_panics less_request))
  /\ filter is_restore (snd (run_request os_Run_panics less_request)) = []
  /\ callback_args (snd (run_request os_Run_panics less_request)) = []
  /\ goroutines (snd (fst (run_request os_Run_panics less_request))) = []
  /\ returned (fst (fst (run_request os_Run_panics less_request))) = false.
Proof.
  apply (@exec_command_panic_leaves_terminal_released World Msg _
           (OsExecCommand_ExecCommand os_Run_panics)
           (program None None) (execMsg_cmd less_request) (execMsg_fn less_request) s0
           (fst (fst (run_request os_Run_panics less_request)))
           (snd (fst (run_request os_Run_panics less_request)))
           (snd (run_request os_Run_panics less_request))
           (EvRun (Panic "fork/exec: resource temporarily unavailable")) eq_refl).
  - do 5 right; left; reflexivity.
  - reflexivity.
  - reflexivity.
Defined.

(** Two proxies on the host's input: the source is read once, then the inner
    observer sees "abc" and the outer one scrubs it. *)
Lemma io_Read_reads_source_once_witness :
  Reader_chain stacked_reader
  = Some ("stdin", fun _ => step "read" (abc, 3%Z, None), [observer; scrubber])
  /\ io_Read (Msg := Msg) stacked_reader zeros s0
     = (Ret (zeros, 3%Z, None), mkState ["read"; "observe"; "scrub"] [],
        [EvRead "stdin" zeros (Ret (abc, 3%Z, None));
         EvHandler abc 3%Z None (Ret abc);
         EvHandler abc 3%Z None (Ret zeros)]).
Proof.
  split; [reflexivity |].
  rewrite (@io_Read_reads_source_once World Msg stacked_reader
             "stdin" (fun _ => step "read" (abc, 3%Z, None)) [observer; scrubber]
             zeros s0 eq_refl).
  reflexivity.
Defined.

(** Two proxies on the host's output: the outer observer scrubs the buffer,
    the inner one sees it scrubbed, and the sink is written last. *)
Lemma io_Write_writes_sink_once_last_witness :
  Writer_chain stacked_writer
  = Some ([scrubber; observer], "stdout", fun b => step "write" (b, 2%Z, short_write))
  /\ io_Write (Msg := Msg) stacked_writer abc s0
     = (Ret (zeros, 2%Z, short_write), mkState ["scrub"; "observe"; "write"] [],
        [EvHandler abc 0%Z None (Ret zeros);
         EvHandler zeros 0%Z None (Ret zeros);
         EvWrite "stdout" zeros (Ret (zeros, 2%Z, short_write))]).
Proof.
  split; [reflexivity |].
  rewrite (@io_Write_writes_sink_once_last World Msg stacked_writer
             [scrubber; observer] "stdout" (fun b => step "write" (b, 2%Z, short_write))
             abc s0 eq_refl).
  reflexivity.
Defined.

(** Two unbound proxies stacked: reading does nothing, writing runs the
    outer observer, then the inner one, and panics. *)
Lemma unbound_proxies_fault_witness :
  Reader_bound (ProxyReader unbound_reader) = false
  /\ io_Read (Msg := Msg) (ProxyReader unbound_reader) zeros s0
     = (Panic nil_dereference, s0, [])
  /\ WriterProxy_bound unbound_writer = false
  /\ scrubber abc 0%Z None (world s0) = (Ret zeros, ["scrub"])
  /\ exists o s' rest,
       WriterProxy_Write (Msg := Msg) unbound_writer abc s0
       = (o, s', EvHandler abc 0%Z None (Ret zeros) :: rest)
       /\ returned o = false.
Proof.
  split; [reflexivity |]. split.
  - exact (proj1 (@unbound_proxies_fault World Msg) (ProxyReader unbound_reader)
             zeros s0 eq_refl).
  - split; [reflexivity |]. split; [reflexivity |].
    destruct (proj2 (@unbound_proxies_fault World Msg) None
                (Some (ProxyWriter writer_proxy)) scrubber abc s0 zeros ["scrub"]
                eq_refl eq_refl) as [o [s' [rest [Hw [Ho _]]]]].
    exists o, s', rest. split; [exact Hw | exact Ho].
Defined.

(** The host's input is set first and the proxy offered next is not taken;
    and after a call with nil the proxy offered next is taken. *)
Lemma OsExecCommand_setters_first_stream_wins_witness :
  Cmd command = Some vim
  /\ (exists c1 c2 cmd2,
         OsExecCommand_SetStdin command (Some stdin) [] = (Ret (tt, c1), [])
         /\ OsExecCommand_SetStdin c1 (Some (ProxyReader reader_proxy)) [] = (Ret (tt, c2), [])
         /\ Cmd c2 = Some cmd2 /\ Stdin cmd2 = Some stdin /\ c2 = c1)
  /\ (exists c1 c2 cmd2,
         OsExecCommand_SetStdin command None [] = (Ret (tt, c1), [])
         /\ OsExecCommand_SetStdin c1 (Some (ProxyReader reader_proxy)) [] = (Ret (tt, c2), [])
         /\ Cmd c2 = Some cmd2 /\ Stdin cmd2 = Some (ProxyReader reader_proxy)).
Proof.
  split; [reflexivity |]. split.
  - destruct (proj1 (@OsExecCommand_setters_first_stream_wins World command vim [] eq_refl)
                (Some stdin) (Some (ProxyReader reader_proxy)))
      as [c1 [c2 [cmd2 [H1 [H2 [Hc [Hs Hsame]]]]]]].
    exists c1, c2, cmd2. repeat split; try assumption.
    apply Hsame. discriminate.
  - destruct (proj1 (@OsExecCommand_setters_first_stream_wins World command vim [] eq_refl)
                None (Some (ProxyReader reader_proxy)))
      as [c1 [c2 [cmd2 [H1 [H2 [Hc [Hs _]]]]]]].
    exists c1, c2, cmd2. repeat split; assumption.
Defined.

Lemma OsExecCommand_setters_commute_witness :
  exists c3 a b,
    OsExecCommand_SetStderr command (Some stdout) [] = (Ret (tt, a), [])
    /\ OsExecCommand_SetStdout a (Some stdout) [] = (Ret (tt, b), [])
    /\ OsExecCommand_SetStdin b (Some stdin) [] = (Ret (tt, c3), [])
    /\ Cmd c3 = Some (mkCmd "vim" ["file.txt"] (Some stdin) (Some stdout) (Some stdout)).
Proof.
  destruct (@OsExecCommand_setters_commute World command
              (OsExecCommand_set_Cmd command (exec_Cmd_set_Stdin vim (Some stdin)))
              (OsExecCommand_set_Cmd command
                 (exec_Cmd_set_Stdout (exec_Cmd_set_Stdin vim (Some stdin)) (Some stdout)))
              (OsExecCommand_set_Cmd command
                 (exec_Cmd_set_Stderr
                    (exec_Cmd_set_Stdout (exec_Cmd_set_Stdin vim (Some stdin)) (Some stdout))
                    (Some stdout)))
              (Some stdin) (Some stdout) (Some stdout) [] [] [] []
              eq_refl eq_refl eq_refl)
    as [_ [_ [_ [_ [_ [_ [a [b [Ha [Hb Hc]]]]]]]]]].
  eexists; exists a, b.
  split; [exact Ha |]. split; [exact Hb |]. split; [exact Hc | reflexivity].
Defined.

(** A pager whose caller kept stderr for itself: stdin and stdout go
    through the bound proxies, stderr stays the caller's. *)
Lemma exec_of_ExecProcess_routes_unset_streams_witness :
  In (EvReleaseTerminal (Ret None)) (snd (run_request (os_Run None) less_request))
  /\ exists c' cmd',
       fst (fst (run_request (os_Run None) less_request)) = Ret c'
       /\ Cmd c' = Some cmd'
       /\ Stdin cmd'
          = Some (ProxyReader (Build_ReaderProxy None (Some stdin) (Some observer)))
       /\ Stdout cmd'
          = Some (ProxyWriter (Build_WriterProxy None (Some stdout) (Some observer)))
       /\ Stderr cmd' = Some stdout
       /\ StdinProxy c' = reader_proxy.
Proof.
  assert (Hrel : In (EvReleaseTerminal (Ret None))
                    (snd (run_request (os_Run None) less_request)))
    by (left; reflexivity).
  split; [exact Hrel |].
  assert (Hkeeps : forall cmd0 w err cmd1 w1,
             os_Run None cmd0 w = (Ret (err, cmd1), w1) ->
             Stdin cmd1 = Stdin cmd0 /\ Stdout cmd1 = Stdout cmd0
             /\ Stderr cmd1 = Stderr cmd0).
  { intros cmd0 w err cmd1 w1 H. unfold os_Run, step in H.
    inversion H; subst. repeat split. }
  destruct (fst (fst (run_request (os_Run None) less_request))) as [c' | msg] eqn:Hc';
    [| vm_compute in Hc'; discriminate Hc'].
  destruct (@exec_of_ExecProcess_routes_unset_streams World Msg (os_Run None)
              (program None None) command_with_stderr
              reader_proxy writer_proxy writer_proxy (Some callback)
              s0 (snd (fst (run_request (os_Run None) less_request))) c'
              (snd (run_request (os_Run None) less_request)) Hkeeps)
    as [cmd' [Hcmd [Hi [Ho [He [Hp _]]]]]].
  - rewrite <- Hc'. reflexivity.
  - exact Hrel.
  - exists c', cmd'. repeat split; assumption.
Defined.

Lemma exec_of_ExecProcess_nil_Cmd_panics_witness :
  ReleaseTerminal (program None None) (world s0) = (Ret None, ["release"])
  /\ run_request (os_Run None) nil_request
     = (Panic nil_dereference, mkState ["release"] [],
        [ EvReleaseTerminal (Ret None);
          EvGetProxies (Ret (reader_proxy, writer_proxy, writer_proxy));
          EvSetStdin (ProxyReader (Build_ReaderProxy None (Some stdin) (Some observer)))
                     (Panic nil_dereference) ]).
Proof.
  split; [reflexivity |].
  exact (@exec_of_ExecProcess_nil_Cmd_panics World Msg (os_Run None)
           (program None None) reader_proxy writer_proxy writer_proxy
           (Some callback) s0 ["release"] eq_refl).
Defined.

End OnDemoChain.
